(** * Big-Data-Math-Pro: the numeric simulation engine

    A shallow embedding of the sampling loop and of the intersection pass of
    [src/components/UniversalSimulator.tsx], of the earlier [generateDataset]
    of the same component, and of the defaults applied to a parsed schema in
    [analyzeProblemForSimulation] (geminiService).

    JavaScript numbers are IEEE 754 binary64 values, taken from the Standard
    Library's [SpecFloat]; objects used as dictionaries ([Record<string,
    number>], [DataPoint]) are finite maps of their own properties (the
    order in which JavaScript enumerates their keys plays no part in the
    engine); a key that a literal or a spread defines is inserted, a key
    that is assigned goes through [OrdinarySet], which accounts for the
    accessor [__proto__] the objects inherit; [Set<string>] is a finite set. Records follow [types.ts]; a field
    the code tests before use ([typeof _ === 'number'], [!_], [_ || []]) is
    an [option].
    The formula body is a string executed by [new Function]: what it computes
    is a parameter of the development, together with the ambient state of the
    JavaScript realm that such code can read and write. [dataCount] is the
    integer the range input of the component produces. *)

From Stdlib Require Import ZArith.
From Stdlib Require Import Floats.SpecFloat.
From stdpp Require Import gmap strings list.

Local Open Scope Z_scope.

(** ** JavaScript numbers *)

Module JSNumber.

Definition prec : Z := 53.
Definition emax : Z := 1024.

Definition number : Type := spec_float.

Definition NaN : number := S754_nan.
Definition Infinity : number := S754_infinity false.

(** An integer literal, rounded to the nearest double (exact below 2^53). *)
Definition ofZ (z : Z) : number := binary_normalize prec emax z 0 false.

Definition add : number → number → number := SFadd prec emax.
Definition sub : number → number → number := SFsub prec emax.
Definition mul : number → number → number := SFmul prec emax.
Definition div : number → number → number := SFdiv prec emax.

(** [a < b] and [a === b] on numbers; both are false when an operand is NaN. *)
Definition ltb : number → number → bool := SFltb.
Definition eqb : number → number → bool := SFeqb.

(** [Math.abs]. *)
Definition abs : number → number := SFabs.

(** The global [isNaN], applied to a number. *)
Definition isNaN (x : number) : bool :=
  match x with
  | S754_nan => true
  | _ => false
  end.

(** [Number.isFinite]: neither NaN nor an infinity. *)
Definition isFinite (x : number) : bool :=
  match x with
  | S754_nan | S754_infinity _ => false
  | _ => true
  end.

(** [Math.sign]: 1, -1, the zero itself, or NaN. *)
Definition sign (x : number) : number :=
  match x with
  | S754_nan => S754_nan
  | S754_zero s => S754_zero s
  | S754_infinity s | S754_finite s _ _ => if s then ofZ (-1) else ofZ 1
  end.

(** The strings [Number.prototype.toFixed] returns, by shape:
    ["NaN"], ["Infinity"] and ["-Infinity"], the decimal expansion of
    [n / 10^fractionDigits] with an optional minus sign, and, from 1e21 on,
    the text [String(x)]. *)
Inductive NumericString : Type :=
| StrNaN
| StrInfinity (neg : bool)
| StrFixed (neg : bool) (n : Z) (fractionDigits : nat)
| StrToString (x : number).

(** [x.toFixed(f)]: [n] is the integer nearest to [|x| * 10^f], the larger
    one on a tie; [-0] prints without a sign. *)
Definition toFixed (x : number) (f : nat) : NumericString :=
  match x with
  | S754_nan => StrNaN
  | S754_infinity s => StrInfinity s
  | S754_zero _ => StrFixed false 0 f
  | S754_finite s m e =>
      if ltb (abs x) (ofZ (10 ^ 21)) then
        let scaled := Z.pos m * 10 ^ Z.of_nat f in
        let n :=
          match e with
          | Zneg p => (2 * scaled + 2 ^ Z.pos p) / 2 ^ (Z.pos p + 1)
          | _ => scaled * 2 ^ e
          end in
        StrFixed s n f
      else StrToString x
  end.

(** [parseFloat] on such a string: the double nearest to the decimal
    (ties to even); [String(x)] reads back as [x]. *)
Definition parseFloat (s : NumericString) : number :=
  match s with
  | StrNaN => S754_nan
  | StrInfinity neg => S754_infinity neg
  | StrFixed neg n f =>
      match n with
      | Zpos p => div (S754_finite neg p 0) (ofZ (10 ^ Z.of_nat f))
      | _ => S754_zero neg
      end
  | StrToString x => x
  end.

(** A decimal literal [n / 10^f] of the source text, such as [2.5]. *)
Definition decimal (n : Z) (f : nat) : number :=
  parseFloat (StrFixed (n <? 0) (Z.abs n) f).

#[global] Instance number_eq_dec : EqDecision number.
Proof. solve_decision. Defined.

End JSNumber.

Import JSNumber.

(** ** JavaScript values returned by a formula *)

Inductive JSPrimitive : Type :=
| PUndefined
| PNull
| PBoolean (b : bool)
| PNumber (x : number)
| PString (s : string).

(** A formula returns a primitive or an object; of an object only its own
    enumerable properties are read, each holding a primitive. *)
Inductive JSValue : Type :=
| VPrim (p : JSPrimitive)
| VObject (props : list (string * JSPrimitive)).

(** The outcome of running code that may throw; the thrown value is only
    ever logged. *)
Inductive Completion (A : Type) : Type :=
| Normal (a : A)
| Throw.
Arguments Normal {A} a.
Arguments Throw {A}.

(** ** types.ts *)

Module VariableDef.
(** [min] and [max] are tested with [typeof _ === 'number'] before use:
    [None] stands for a value that is not a number at run time. *)
Record t : Type := mk {
  name : string;
  symbol : string;
  min : option number;
  max : option number;
  default : number;
  step : number;
  description : string
}.
End VariableDef.

Module OutputVariable.
Record t : Type := mk {
  name : string;
  symbol : string;
  unit : option string;
  color : option string;
  visible : option bool
}.
End OutputVariable.

Module SimulationSchema.
(** [independentVariables] and [outputs] are tested for presence before
    use: [None] is a missing (undefined or null) field. *)
Record t : Type := mk {
  title : string;
  description : string;
  independentVariables : option (list VariableDef.t);
  outputs : option (list OutputVariable.t);
  jsFormula : string;
  pythonFormula : string;
  analysisMarkdown : string
}.
End SimulationSchema.

(** [DataPoint]: every value the engine stores is a number. *)
Abbreviation DataPoint := (gmap string number).

(** [obj[key] = v] for a number [v], on an object that an object literal
    made (its prototype is [Object.prototype]). The value is stored under
    the key, with one exception: for the key [__proto__], when the object
    has no own property of that name, the assignment reaches the accessor
    of [Object.prototype], whose setter ignores a value that is not an
    object, and nothing is stored. An own property of that name, which a
    computed key or a spread in the literal defines, is written as any
    other. *)
Definition OrdinarySet (obj : gmap string number) (key : string) (v : number)
    : gmap string number :=
  if decide (key = "__proto__") then
    match obj !! key with
    | Some _ => <[key := v]> obj
    | None => obj
    end
  else <[key := v]> obj.

(** [Number(p[key])]: a key the point does not own reads as [undefined],
    or as what [Object.prototype] holds under it (a function, or the
    prototype itself for [__proto__]); [Number] of any of these is NaN. *)
Definition NumberAt (p : DataPoint) (key : string) : number :=
  match p !! key with
  | Some v => v
  | None => NaN
  end.

Module Intersection.
Record t : Type := mk {
  x : number;
  y : number;
  label : string;
  color : string
}.
End Intersection.

#[global] Instance Intersection_eq_dec : EqDecision Intersection.t.
Proof. solve_decision. Defined.

(** The primary-variable column of a dataset, as the intersection pass and
    the chart read it. *)
Definition primaryValues (primarySymbol : string) (data : list DataPoint)
    : list number :=
  map (λ p, NumberAt p primarySymbol) data.

(** Each value is [<] the next one. *)
Fixpoint strictlyIncreasing (xs : list number) : bool :=
  match xs with
  | a :: ((b :: _) as rest) => ltb a b && strictlyIncreasing rest
  | _ => true
  end.

(** ** Defaults applied to the parsed response (geminiService) *)

(** [s.includes(searchString)] *)
Fixpoint includes (s searchString : string) : bool :=
  if String.prefix searchString s then true
  else
    match s with
    | EmptyString => false
    | String _ rest => includes rest searchString
    end.

(** [s || fallback] for an optional string: undefined and the empty string
    are falsy. *)
Definition orElse (s : option string) (fallback : string) : string :=
  match s with
  | Some (String c rest) => String c rest
  | _ => fallback
  end.

Module ParsedVariable.
(** One entry of [parsed.independentVariables] before the defaults: any
    field may be missing, and a numeric field may hold something else than
    a number ([None]). *)
Record t : Type := mk {
  name : option string;
  symbol : option string;
  min : option number;
  max : option number;
  default : option number;
  step : option number;
  description : option string
}.
End ParsedVariable.

Module LegacyDependent.
(** [(parsed as any).dependentVariable] *)
Record t : Type := mk {
  name : option string;
  symbol : option string;
  unit : option string
}.
End LegacyDependent.

Module ParsedResponse.
(** [JSON.parse(cleaned)]; [None] is a missing field. *)
Record t : Type := mk {
  title : string;
  description : string;
  independentVariables : option (list ParsedVariable.t);
  outputs : option (list OutputVariable.t);
  dependentVariable : option LegacyDependent.t;
  jsFormula : option string;
  pythonFormula : string;
  analysisMarkdown : string
}.
End ParsedResponse.

(** The two statements on [parsed.jsFormula]. *)
Definition defaultJsFormula (jsFormula : option string) : string :=
  let f := orElse jsFormula "return 0;" in
  if includes f "return" then f else String.append "return " f.

Definition defaultVariable (v : ParsedVariable.t) : VariableDef.t :=
  VariableDef.mk
    (orElse (ParsedVariable.name v) "Variable")
    (orElse (ParsedVariable.symbol v) "x")
    (Some (default (ofZ (-10)) (ParsedVariable.min v)))
    (Some (default (ofZ 10) (ParsedVariable.max v)))
    (default (ofZ 0) (ParsedVariable.default v))
    (default (ofZ 1) (ParsedVariable.step v))
    (orElse (ParsedVariable.description v) "").

Definition defaultOutputs (parsed : ParsedResponse.t)
    : list OutputVariable.t :=
  match ParsedResponse.outputs parsed,
        ParsedResponse.dependentVariable parsed with
  | None, Some legacyDep =>
      [ OutputVariable.mk
          (orElse (LegacyDependent.name legacyDep) "Resultado")
          (orElse (LegacyDependent.symbol legacyDep) "y")
          (Some (orElse (LegacyDependent.unit legacyDep) ""))
          None None ]
  | None, None => [ OutputVariable.mk "f(x)" "y" (Some "") None None ]
  | Some outs, _ => outs
  end.

(** The "Validation & Defaults" block of [analyzeProblemForSimulation]. *)
Definition validationAndDefaults (parsed : ParsedResponse.t)
    : SimulationSchema.t :=
  let vars :=
    match ParsedResponse.independentVariables parsed with
    | Some vs => vs
    | None =>
        [ ParsedVariable.mk (Some "Tiempo") (Some "t")
            (Some (ofZ 0)) (Some (ofZ 20)) (Some (ofZ 0)) (Some (ofZ 1))
            (Some "Variable independiente") ]
    end in
  SimulationSchema.mk
    (ParsedResponse.title parsed)
    (ParsedResponse.description parsed)
    (Some (map defaultVariable vars))
    (Some (defaultOutputs parsed))
    (defaultJsFormula (ParsedResponse.jsFormula parsed))
    (ParsedResponse.pythonFormula parsed)
    (ParsedResponse.analysisMarkdown parsed).

(** ** Text helpers of geminiService

    A character of a string is read as a UTF-16 code unit below 256. *)

Definition codeUnit (n : N) : Ascii.ascii := Ascii.ascii_of_N n.

(** The white space [String.prototype.trim] removes, among those code
    units: TAB, LF, VT, FF, CR, SP and NBSP. *)
Definition isWhiteSpace (c : Ascii.ascii) : bool :=
  bool_decide (Ascii.N_of_ascii c ∈ [9; 10; 11; 12; 13; 32; 160]%N).

Fixpoint trimStart (s : string) : string :=
  match s with
  | String c rest => if isWhiteSpace c then trimStart rest else s
  | EmptyString => EmptyString
  end.

Fixpoint trimEnd (s : string) : string :=
  match s with
  | String c rest =>
      match trimEnd rest with
      | EmptyString => if isWhiteSpace c then EmptyString else String c EmptyString
      | kept => String c kept
      end
  | EmptyString => EmptyString
  end.

(** [s.trim()] *)
Definition trim (s : string) : string := trimEnd (trimStart s).

(** [s.startsWith(searchString)] *)
Definition startsWith (s searchString : string) : bool :=
  String.prefix searchString s.

(** [s.endsWith(searchString)]: some tail of [s] is [searchString]. *)
Fixpoint endsWith (s searchString : string) : bool :=
  if String.eqb s searchString then true
  else
    match s with
    | String _ rest => endsWith rest searchString
    | EmptyString => false
    end.

(** [s.substring(start)] *)
Fixpoint substringFrom (start : nat) (s : string) : string :=
  match start, s with
  | S n, String _ rest => substringFrom n rest
  | _, _ => s
  end.

(** [s.substring(0, stop)] *)
Fixpoint substringTo (stop : nat) (s : string) : string :=
  match stop, s with
  | S n, String c rest => String c (substringTo n rest)
  | _, _ => EmptyString
  end.

(** Strips a Markdown code fence from the model's answer. *)
Definition cleanJsonText (text : string) : string :=
  let cleaned := trim text in
  let cleaned :=
    if startsWith cleaned "```json" then substringFrom 7 cleaned
    else if startsWith cleaned "```" then substringFrom 3 cleaned
    else cleaned in
  let cleaned :=
    if endsWith cleaned "```"
    then substringTo (String.length cleaned - 3) cleaned
    else cleaned in
  trim cleaned.

(** ** The request to the model provider (geminiService) *)

(** What a [try] block or an awaited promise gives: a value, or a thrown
    error, of which only the [message] is read. *)
Inductive Outcome (A : Type) : Type :=
| Returned (a : A)
| Raised (message : string).
Arguments Returned {A} a.
Arguments Raised {A} message.

(** [process.env.API_KEY], else [window.API_KEY], else ['']; [None] is a
    variable that is not defined. *)
Definition getApiKey (processEnvKey windowKey : option string) : string :=
  orElse processEnvKey (orElse windowKey "").

(** The client is built from the key; without a key the call throws. *)
Definition getAiClient (apiKey : string) : Outcome string :=
  match apiKey with
  | EmptyString =>
      Raised "Falta la API KEY. Por favor configura la variable de entorno API_KEY en Vercel."
  | key => Returned key
  end.

(** ["Error de Análisis"] *)
Definition errorTitle : string :=
  String.append "Error de An" (String (codeUnit 225) "lisis").

(** ["La IA no devolvió texto válido."] *)
Definition noTextMessage : string :=
  String.append "La IA no devolvi"
    (String (codeUnit 243) (String.append " texto v" (String (codeUnit 225) "lido."))).

(** The schema the [catch] of [analyzeProblemForSimulation] returns. *)
Definition errorSchema (message : string) : SimulationSchema.t :=
  SimulationSchema.mk
    errorTitle
    (match message with
     | EmptyString => "No se pudo interpretar el problema."
     | m => m
     end)
    (Some [ VariableDef.mk "x" "x" (Some (ofZ (-10))) (Some (ofZ 10))
              (ofZ 0) (ofZ 1) "" ])
    (Some [ OutputVariable.mk "Error" "y" None None None ])
    "return 0;"
    "0"
    (String.append "### Error"
       (String (codeUnit 10) (String (codeUnit 10)
          (String.append message
             (String.append ". Aseg"
                (String (codeUnit 250)
                   "rate de haber configurado la API KEY en Vercel.")))))).

Section Service.

(** [ai.models.generateContent] for a client and a problem text, awaited:
    the [text] of the response, which may be missing, or a rejection. *)
Variable generateContent : string → string → Outcome (option string).

(** [JSON.parse]; it raises on text that is not JSON, and here also on a
    value that is not an object with fields of the shapes of
    [ParsedResponse.t], which the defaults block cannot read. *)
Variable JSONparse : string → Outcome ParsedResponse.t.

(** The [try] block of [analyzeProblemForSimulation]. *)
Definition requestSchema (apiKey problemText : string)
    : Outcome SimulationSchema.t :=
  match getAiClient apiKey with
  | Raised message => Raised message
  | Returned ai =>
      match generateContent ai problemText with
      | Raised message => Raised message
      | Returned (Some (String c rest)) =>
          match JSONparse (cleanJsonText (String c rest)) with
          | Raised message => Raised message
          | Returned parsed => Returned (validationAndDefaults parsed)
          end
      | Returned _ => Raised noTextMessage
      end
  end.

Definition analyzeProblemForSimulation (apiKey problemText : string)
    : SimulationSchema.t :=
  match requestSchema apiKey problemText with
  | Returned parsed => parsed
  | Raised message => errorSchema message
  end.

(** The same call for the tutor's prompt, built from a context and a
    question. *)
Variable generateExplanation :
  string → string → string → Outcome (option string).

(** [explainMathConcept]: the answer, a fixed text when the answer is
    empty, another one when anything throws. *)
Definition explainMathConcept (apiKey context question : string) : string :=
  match getAiClient apiKey with
  | Raised _ => "Error al conectar con tutor. Verifica tu API Key."
  | Returned ai =>
      match generateExplanation ai context question with
      | Raised _ => "Error al conectar con tutor. Verifica tu API Key."
      | Returned text =>
          orElse text
            (String.append "No se pudo generar explicaci" (String (codeUnit 243) "n."))
      end
  end.

End Service.

(** ** Handlers of the components *)

(** The binding [handleAnalyze] builds from [{}]: for every variable with
    a truthy symbol, [initialVars[v.symbol] = v.default], a later variable
    overwriting an earlier one of the same symbol. *)
Definition initialVars (independentVariables : option (list VariableDef.t))
    : gmap string number :=
  foldl (λ vars v,
           if decide (VariableDef.symbol v = "") then vars
           else OrdinarySet vars (VariableDef.symbol v) (VariableDef.default v))
        ∅ (default [] independentVariables).


(** The set passed to [setHiddenLines]. *)
Definition toggleLineVisibility (hiddenLines : gset string) (symbol : string)
    : gset string :=
  if decide (symbol ∈ hiddenLines) then hiddenLines ∖ {[symbol]}
  else hiddenLines ∪ {[symbol]}.

Module Simulator.
(** The state of the [UniversalSimulator] component that its handlers and
    its memoized values read. *)
Record t : Type := mk {
  problemText : string;
  isAnalyzing : bool;
  errorMsg : option string;
  schema : option SimulationSchema.t;
  variables : gmap string number;
  dataCount : Z;
  hiddenLines : gset string
}.
End Simulator.

(** ["Ocurrió un error inesperado. Por favor intenta de nuevo."] *)
Definition unexpectedErrorMessage : string :=
  String.append "Ocurri"
    (String (codeUnit 243) " un error inesperado. Por favor intenta de nuevo.").

(** The state once [handleAnalyze] has run to its end, given what the
    awaited [analyzeProblemForSimulation(problemText)] gave, when no other
    event changed the state in between. *)
Definition handleAnalyze (st : Simulator.t)
    (analysis : Outcome SimulationSchema.t) : Simulator.t :=
  match trim (Simulator.problemText st) with
  | EmptyString => st
  | _ =>
      match analysis with
      | Returned result =>
          if decide (SimulationSchema.title result = errorTitle) then
            Simulator.mk (Simulator.problemText st) false
              (Some (SimulationSchema.description result)) (Some result)
              (Simulator.variables st) (Simulator.dataCount st) ∅
          else
            Simulator.mk (Simulator.problemText st) false None (Some result)
              (initialVars (SimulationSchema.independentVariables result))
              (Simulator.dataCount st) ∅
      | Raised _ =>
          Simulator.mk (Simulator.problemText st) false
            (Some unexpectedErrorMessage) None
            (Simulator.variables st) (Simulator.dataCount st) ∅
      end
  end.

Module Tutor.
(** The state of the [GeminiTutor] component. *)
Record t : Type := mk {
  query : string;
  response : string;
  loading : bool
}.
End Tutor.

(** The state once [handleSubmit] has run to its end, given the awaited
    answer of [explainMathConcept], when no other event changed the state
    in between. *)
Definition handleSubmit (st : Tutor.t) (result : string) : Tutor.t :=
  match trim (Tutor.query st) with
  | EmptyString => st
  | _ => Tutor.mk (Tutor.query st) result false
  end.

(** A string that does not begin with white space. *)
Definition noLeadingWhiteSpace (s : string) : Prop :=
  match s with
  | String c _ => isWhiteSpace c = false
  | EmptyString => True
  end.

(** A string of white space only. *)
Definition blank (s : string) : Prop := trimStart s = "".

(** ** Shape of a schema *)

Definition wellFormedVariable (v : VariableDef.t) : Prop :=
  VariableDef.name v ≠ "" ∧ VariableDef.symbol v ≠ ""
  ∧ is_Some (VariableDef.min v) ∧ is_Some (VariableDef.max v).

(** Both lists are present, every variable has a name, a symbol and
    numeric bounds, and the formula body contains "return". *)
Definition wellFormedSchema (sch : SimulationSchema.t) : Prop :=
  ∃ vars outs,
    SimulationSchema.independentVariables sch = Some vars
    ∧ SimulationSchema.outputs sch = Some outs
    ∧ Forall wellFormedVariable vars
    ∧ includes (SimulationSchema.jsFormula sch) "return" = true.

(** ** Concrete schemas and formulas *)

Module Examples.

(** No example formula returns a string inside an object. *)
Definition stringToNumber : string → number := λ _, NaN.

Definition variable (symbol : string) (lo hi : Z) : VariableDef.t :=
  VariableDef.mk symbol symbol (Some (ofZ lo)) (Some (ofZ hi))
                 (ofZ lo) (ofZ 1) "".

Definition output (symbol : string) : OutputVariable.t :=
  OutputVariable.mk symbol symbol None None None.

Definition schema (vars : list VariableDef.t) (outs : list OutputVariable.t)
    (jsFormula : string) : SimulationSchema.t :=
  SimulationSchema.mk "Ejemplo" "" (Some vars) (Some outs) jsFormula "" "".

(** The value of [{ A: 2*x, B: -2*x+10 }]. *)
Definition linesResult (x : number) : JSValue :=
  VObject [ ("A", PNumber (mul (ofZ 2) x));
            ("B", PNumber (add (mul (ofZ (-2)) x) (ofZ 10))) ].

(** The value of [{ A: 1/x, B: 0 }]. *)
Definition reciprocalResult (x : number) : JSValue :=
  VObject [ ("A", PNumber (div (ofZ 1) x)); ("B", PNumber (ofZ 0)) ].

(** What each formula text used below computes. A text that mentions [x]
    throws when no argument is named [x]; any other text throws, as does
    the reference to the undefined [k] in ["return k * x;"]. The host state
    is a clock that [Date.now()] reads and that ticks on every call. *)
Definition run (jsFormula : string) (args : gmap string number) (clock : Z)
    : Completion JSValue * Z :=
  let withX (body : number → JSValue) : Completion JSValue :=
    match args !! "x" with
    | Some x => Normal (body x)
    | None => Throw
    end in
  let outcome :=
    if decide (jsFormula = "return { A: 2*x, B: -2*x+10 };") then
      withX linesResult
    else if decide (jsFormula = "return { A: 1/x, B: 0 };") then
      withX reciprocalResult
    else if decide (jsFormula = "return 2*x") then
      withX (λ x, VPrim (PNumber (mul (ofZ 2) x)))
    else if decide (jsFormula = "return 0;") then
      Normal (VPrim (PNumber (ofZ 0)))
    else if decide (jsFormula = "return 'n/a';") then
      Normal (VPrim (PString "n/a"))
    else if decide (jsFormula = "return Date.now();") then
      Normal (VPrim (PNumber (ofZ clock)))
    else Throw in
  (outcome, clock + 1).

Definition lines : SimulationSchema.t :=
  schema [variable "x" 0 10] [output "A"; output "B"]
         "return { A: 2*x, B: -2*x+10 };".

Definition reciprocal : SimulationSchema.t :=
  schema [variable "x" (-10) 10] [output "A"; output "B"]
         "return { A: 1/x, B: 0 };".

Definition zero : SimulationSchema.t :=
  schema [variable "x" 0 1] [output "y"] "return 0;".

Definition undefinedSymbol : SimulationSchema.t :=
  schema [variable "x" 0 10] [output "y"] "return k * x;".

Definition notAvailable : SimulationSchema.t :=
  schema [variable "x" 0 10] [output "y"] "return 'n/a';".

Definition clock : SimulationSchema.t :=
  schema [variable "x" 0 10] [output "y"] "return Date.now();".

Definition unnamedOutput : SimulationSchema.t :=
  schema [variable "x" 0 10] [output ""] "return 2*x".

Definition noVariables : SimulationSchema.t :=
  schema [] [output "A"; output "B"] "return 0;".

(** A parsed response whose formula body is the bare expression [2*x]. *)
Definition parsedDouble : ParsedResponse.t :=
  ParsedResponse.mk "Doble" ""
    (Some [ ParsedVariable.mk (Some "x") (Some "x") (Some (ofZ 0))
              (Some (ofZ 10)) (Some (ofZ 0)) (Some (ofZ 1)) None ])
    (Some [output "y"]) None (Some "2*x") "" "".

(** A parsed response without a formula body. *)
Definition parsedNoFormula : ParsedResponse.t :=
  ParsedResponse.mk "Sin formula" ""
    (Some [ ParsedVariable.mk (Some "x") (Some "x") (Some (ofZ 0))
              (Some (ofZ 10)) (Some (ofZ 0)) (Some (ofZ 1)) None ])
    (Some [output "y"]) None None "" "".

(** The binding [handleAnalyze] builds for a schema with the one variable
    [x]: its default value. *)
Definition binding (x : Z) : gmap string number := {[ "x" := ofZ x ]}.

End Examples.

(** ** Concrete provider answers and component states *)

Module Scenarios.

(** A line feed. *)
Definition lineFeed : string := String (codeUnit 10) "".

(** A text between double quotes. *)
Definition quoted (s : string) : string :=
  String (codeUnit 34) (s +:+ String (codeUnit 34) "").

(** The JSON text of [Examples.parsedDouble]: an object with the fields
    title, description, independentVariables (one variable, of fields
    name, symbol, min, max, default and step), outputs (one output, of
    fields name and symbol), jsFormula, pythonFormula and
    analysisMarkdown. *)
Definition doubleJson : string :=
  "{" +:+ quoted "title" +:+ ": " +:+ quoted "Doble" +:+ ", "
  +:+ quoted "description" +:+ ": " +:+ quoted "" +:+ ", "
  +:+ quoted "independentVariables" +:+ ": [{"
  +:+ quoted "name" +:+ ": " +:+ quoted "x" +:+ ", "
  +:+ quoted "symbol" +:+ ": " +:+ quoted "x" +:+ ", "
  +:+ quoted "min" +:+ ": 0, " +:+ quoted "max" +:+ ": 10, "
  +:+ quoted "default" +:+ ": 0, " +:+ quoted "step" +:+ ": 1}], "
  +:+ quoted "outputs" +:+ ": [{"
  +:+ quoted "name" +:+ ": " +:+ quoted "y" +:+ ", "
  +:+ quoted "symbol" +:+ ": " +:+ quoted "y" +:+ "}], "
  +:+ quoted "jsFormula" +:+ ": " +:+ quoted "2*x" +:+ ", "
  +:+ quoted "pythonFormula" +:+ ": " +:+ quoted "" +:+ ", "
  +:+ quoted "analysisMarkdown" +:+ ": " +:+ quoted "" +:+ "}".

(** The provider answers every text with the same fenced JSON text. *)
Definition fencedAnswer : string :=
  "```json" +:+ lineFeed +:+ doubleJson +:+ lineFeed +:+ "```".

Definition answering (ai problemText : string) : Outcome (option string) :=
  Returned (Some fencedAnswer).

(** The provider rejects every request. *)
Definition rejecting (ai problemText : string) : Outcome (option string) :=
  Raised "503 Service Unavailable".

(** [JSON.parse] on the one text [doubleJson], which it reads as
    [parsedDouble]; any other text is taken to have a syntax error. *)
Definition parse (text : string) : Outcome ParsedResponse.t :=
  if decide (text = doubleJson) then Returned Examples.parsedDouble
  else Raised "Unexpected token".

(** A tutor that has nothing to say. *)
Definition silent (ai context question : string) : Outcome (option string) :=
  Returned (Some "").

(** The component after two lines were hidden and a slider was moved. *)
Definition state : Simulator.t :=
  Simulator.mk "Un ciclista A viaja a 14 km/h" false None
    (Some Examples.lines) (Examples.binding 3) 100 {[ "A"; "B" ]}.

Definition asking : Tutor.t := Tutor.mk "Que es la pendiente" "" true.


(** A runtime for two more formula texts. [x < 2 ? x : null.x] returns
    [x] below 2 and throws from 2 on, where it reads a property of [null];
    it throws as well when no argument is named [x]. The object literal
    with the computed key ['__proto__'] has two own properties, of keys
    [__proto__] and [A]. Other texts run as in [Examples.run]. *)
Definition run (jsFormula : string) (args : gmap string number)
    (clock : Z) : Completion JSValue * Z :=
  if decide (jsFormula = "return x < 2 ? x : null.x;") then
    (match args !! "x" with
     | Some x => if ltb x (ofZ 2) then Normal (VPrim (PNumber x)) else Throw
     | None => Throw
     end, clock + 1)
  else if decide (jsFormula = "return { ['__proto__']: 5, A: 1 };") then
    (Normal (VObject [ ("__proto__", PNumber (ofZ 5)); ("A", PNumber (ofZ 1)) ]),
     clock + 1)
  else Examples.run jsFormula args clock.

Definition partial : SimulationSchema.t :=
  Examples.schema [Examples.variable "x" 0 3] [Examples.output "y"]
    "return x < 2 ? x : null.x;".

(** A schema whose single output is called [__proto__]. *)
Definition protoOutput : SimulationSchema.t :=
  Examples.schema [Examples.variable "x" 0 10] [Examples.output "__proto__"]
    "return 0;".

(** Two lines that coincide, and a third column [y]. *)
Definition coincident : list DataPoint :=
  [ {[ "x" := ofZ 0; "A" := ofZ 1; "B" := ofZ 1; "y" := ofZ 5 ]};
    {[ "x" := ofZ 1; "A" := ofZ 2; "B" := ofZ 2; "y" := ofZ 0 ]};
    {[ "x" := ofZ 2; "A" := ofZ 1; "B" := ofZ 1; "y" := ofZ 5 ]} ].

End Scenarios.

(** ** The simulation engine (UniversalSimulator.tsx) *)

Section Engine.

(** The ambient state of the JavaScript realm: whatever code built by
    [new Function] can reach besides its arguments (globals, the clock,
    the random generator). *)
Context {Host : Type}.

(** [callFunction body contextVars h] is
    [new Function(...keys, body)(...values)] started in host state [h],
    where [keys] and [values] enumerate [contextVars]: the call binds every
    key to its value. Building the function or running it may throw. *)
Variable callFunction :
  string → gmap string number → Host → Completion JSValue * Host.

(** [Number(s)] for a string [s], as the JavaScript runtime defines it. *)
Variable StringToNumber : string → number.

(** [Number(v)] for a primitive [v]. *)
Definition ToNumber (v : JSPrimitive) : number :=
  match v with
  | PUndefined => NaN
  | PNull => S754_zero false
  | PBoolean b => if b then ofZ 1 else S754_zero false
  | PNumber x => x
  | PString s => StringToNumber s
  end.

(** *** 2. Data generation engine *)

(** [parseFloat((minVal + (i * step)).toFixed(2))] *)
Definition currentX (minVal step : number) (i : Z) : number :=
  parseFloat (toFixed (add minVal (mul (ofZ i) step)) 2).

(** [{ ...variables, [primaryVar.symbol]: currentX }] *)
Definition contextVars (variables : gmap string number)
    (primaryVar : VariableDef.t) (x : number) : gmap string number :=
  <[VariableDef.symbol primaryVar := x]> variables.

(** [outs[0]?.symbol || 'y']: the empty string is falsy. *)
Definition singleOutputSymbol (outs : list OutputVariable.t) : string :=
  match outs with
  | o :: _ =>
      if decide (OutputVariable.symbol o = "") then "y"
      else OutputVariable.symbol o
  | [] => "y"
  end.

(** The two branches on [resultRaw] that fill the point. *)
Definition storeResult (outs : list OutputVariable.t) (resultRaw : JSValue)
    (point : DataPoint) : DataPoint :=
  match resultRaw with
  | VObject props =>
      foldl (λ pt kv,
               OrdinarySet pt kv.1 (parseFloat (toFixed (ToNumber kv.2) 4)))
            point props
  | VPrim (PNumber r) =>
      OrdinarySet point (singleOutputSymbol outs) (parseFloat (toFixed r 4))
  | VPrim _ => point
  end.

(** [{ [primaryVar.symbol]: currentX, ...contextVars }] and then the
    result: the point pushed for one successful sample. *)
Definition makePoint (primaryVar : VariableDef.t) (outs : list OutputVariable.t)
    (x : number) (ctx : gmap string number) (resultRaw : JSValue) : DataPoint :=
  storeResult outs resultRaw (ctx ∪ {[VariableDef.symbol primaryVar := x]}).

(** The body of the [for] loop over the sample indices still to visit:
    a sample whose evaluation throws is skipped by the [catch]. *)
Fixpoint sampleLoop (jsFormula : string) (variables : gmap string number)
    (primaryVar : VariableDef.t) (outs : list OutputVariable.t)
    (minVal step : number) (indices : list Z) (h : Host)
    : list DataPoint * Host :=
  match indices with
  | [] => ([], h)
  | i :: rest =>
      let x := currentX minVal step i in
      let ctx := contextVars variables primaryVar x in
      let '(resultRaw, h1) := callFunction jsFormula ctx h in
      let '(data, h2) :=
        sampleLoop jsFormula variables primaryVar outs minVal step rest h1 in
      match resultRaw with
      | Normal r => (makePoint primaryVar outs x ctx r :: data, h2)
      | Throw => (data, h2)
      end
  end.

Record Generated : Type := mkGenerated {
  generatedData : list DataPoint;
  primaryAxisVar : option VariableDef.t;
  outputs : list OutputVariable.t
}.

(** [typeof primaryVar.min === 'number' ? primaryVar.min : -10] *)
Definition minVal (primaryVar : VariableDef.t) : number :=
  default (ofZ (-10)) (VariableDef.min primaryVar).

(** [typeof primaryVar.max === 'number' ? primaryVar.max : 10] *)
Definition maxVal (primaryVar : VariableDef.t) : number :=
  default (ofZ 10) (VariableDef.max primaryVar).

(** [dataCount > 0 ? dataCount : 100] *)
Definition safeDataCount (dataCount : Z) : Z :=
  if 0 <? dataCount then dataCount else 100.

(** [(maxVal - minVal) / safeDataCount] *)
Definition stepSize (primaryVar : VariableDef.t) (count : Z) : number :=
  div (sub (maxVal primaryVar) (minVal primaryVar)) (ofZ count).

(** The first [useMemo]: [schema] is null until a problem was analysed. *)
Definition dataGenerationEngine (schema : option SimulationSchema.t)
    (variables : gmap string number) (dataCount : Z) (h : Host)
    : Generated * Host :=
  match schema with
  | None => (mkGenerated [] None [], h)
  | Some sch =>
      match SimulationSchema.independentVariables sch with
      | None | Some [] => (mkGenerated [] None [], h)
      | Some (primaryVar :: _) =>
          let outs := default [] (SimulationSchema.outputs sch) in
          let n := safeDataCount dataCount in
          let '(data, h') :=
            sampleLoop (SimulationSchema.jsFormula sch) variables primaryVar
                       outs (minVal primaryVar) (stepSize primaryVar n)
                       (seqZ 0 (n + 1)) h in
          (mkGenerated data (Some primaryVar) outs, h')
      end
  end.

(** *** 3. Intersection detection engine *)

(** One adjacent pair of points for one pair of lines: the marker pushed,
    if any. *)
Definition crossing (primarySymbol : string) (lineA lineB : OutputVariable.t)
    (p1 p2 : DataPoint) : list Intersection.t :=
  let x1 := NumberAt p1 primarySymbol in
  let x2 := NumberAt p2 primarySymbol in
  let yA1 := NumberAt p1 (OutputVariable.symbol lineA) in
  let yB1 := NumberAt p1 (OutputVariable.symbol lineB) in
  let yA2 := NumberAt p2 (OutputVariable.symbol lineA) in
  let yB2 := NumberAt p2 (OutputVariable.symbol lineB) in
  if isNaN yA1 || isNaN yB1 || isNaN yA2 || isNaN yB2 then []
  else
    let diff1 := sub yA1 yB1 in
    let diff2 := sub yA2 yB2 in
    if negb (eqb (sign diff1) (sign diff2)) && ltb (abs diff1) (ofZ 1000) then
      let fraction := div (abs diff1) (add (abs diff1) (abs diff2)) in
      let intersectX := add x1 (mul fraction (sub x2 x1)) in
      let intersectY := add yA1 (mul fraction (sub yA2 yA1)) in
      [ Intersection.mk (parseFloat (toFixed intersectX 2))
                        (parseFloat (toFixed intersectY 2))
                        "Cruce" "#EF4444" ]
    else [].

(** The loop on [k] over the adjacent pairs of the dataset. *)
Fixpoint segmentLoop (primarySymbol : string) (lineA lineB : OutputVariable.t)
    (data : list DataPoint) : list Intersection.t :=
  match data with
  | p1 :: ((p2 :: _) as rest) =>
      crossing primarySymbol lineA lineB p1 p2
        ++ segmentLoop primarySymbol lineA lineB rest
  | _ => []
  end.

(** The loop on [j > i] for a fixed [lineA]. *)
Fixpoint innerLoop (primarySymbol : string) (lineA : OutputVariable.t)
    (others : list OutputVariable.t) (data : list DataPoint)
    : list Intersection.t :=
  match others with
  | [] => []
  | lineB :: rest =>
      segmentLoop primarySymbol lineA lineB data
        ++ innerLoop primarySymbol lineA rest data
  end.

(** The loop on [i] over the active outputs. *)
Fixpoint outerLoop (primarySymbol : string)
    (activeOutputs : list OutputVariable.t) (data : list DataPoint)
    : list Intersection.t :=
  match activeOutputs with
  | [] => []
  | lineA :: rest =>
      innerLoop primarySymbol lineA rest data
        ++ outerLoop primarySymbol rest data
  end.

(** [outputs.filter(o => !hiddenLines.has(o.symbol))] *)
Definition activeOutputs (outs : list OutputVariable.t)
    (hiddenLines : gset string) : list OutputVariable.t :=
  filter (λ o, OutputVariable.symbol o ∉ hiddenLines) outs.

(** The second [useMemo]. *)
Definition intersections (data : list DataPoint)
    (outs : list OutputVariable.t) (hiddenLines : gset string)
    (primary : option VariableDef.t) : list Intersection.t :=
  match primary with
  | None => []
  | Some primaryVar =>
      if decide (length data = 0%nat ∨ (length outs < 2)%nat) then []
      else outerLoop (VariableDef.symbol primaryVar)
                     (activeOutputs outs hiddenLines) data
  end.

(** Both memoized values of the component for one render. *)
Definition UniversalSimulator (schema : option SimulationSchema.t)
    (variables : gmap string number) (dataCount : Z)
    (hiddenLines : gset string) (h : Host)
    : list DataPoint * list Intersection.t * Host :=
  let '(g, h') := dataGenerationEngine schema variables dataCount h in
  (generatedData g,
   intersections (generatedData g) (outputs g) hiddenLines (primaryAxisVar g),
   h').

(** *** The earlier [generateDataset] of the same component *)

(** As [storeResult], but the single-number branch reads
    [currentSchema.outputs[0]] without a default: on a missing [outputs]
    that access throws, inside the [try]. *)
Definition storeResultLegacy (outs : option (list OutputVariable.t))
    (resultRaw : JSValue) (point : DataPoint) : Completion DataPoint :=
  match resultRaw with
  | VObject props =>
      Normal
        (foldl (λ pt kv,
                  OrdinarySet pt kv.1
                    (parseFloat (toFixed (ToNumber kv.2) 4)))
               point props)
  | VPrim (PNumber r) =>
      match outs with
      | Some os =>
          Normal (OrdinarySet point (singleOutputSymbol os)
                    (parseFloat (toFixed r 4)))
      | None => Throw
      end
  | VPrim _ => Normal point
  end.

Fixpoint generateDatasetLoop (currentSchema : SimulationSchema.t)
    (currentVars : gmap string number) (primaryVar : VariableDef.t)
    (minV step : number) (indices : list Z) (h : Host)
    : list DataPoint * Host :=
  match indices with
  | [] => ([], h)
  | i :: rest =>
      let x := currentX minV step i in
      let ctx := contextVars currentVars primaryVar x in
      let '(resultRaw, h1) :=
        callFunction (SimulationSchema.jsFormula currentSchema) ctx h in
      let '(data, h2) :=
        generateDatasetLoop currentSchema currentVars primaryVar minV step
                            rest h1 in
      match resultRaw with
      | Normal r =>
          match storeResultLegacy (SimulationSchema.outputs currentSchema) r
                  (ctx ∪ {[VariableDef.symbol primaryVar := x]}) with
          | Normal point => (point :: data, h2)
          | Throw => (data, h2)
          end
      | Throw => (data, h2)
      end
  end.

(** The dataset passed to [setGeneratedData]; [None] when the function
    returns before it, leaving the previous dataset in place. [count] is
    used as it comes. *)
Definition generateDataset (currentSchema : option SimulationSchema.t)
    (currentVars : gmap string number) (count : Z) (h : Host)
    : option (list DataPoint) * Host :=
  match currentSchema with
  | None => (None, h)
  | Some sch =>
      match SimulationSchema.independentVariables sch with
      | None | Some [] => (None, h)
      | Some (primaryVar :: _) =>
          let '(data, h') :=
            generateDatasetLoop sch currentVars primaryVar
              (minVal primaryVar) (stepSize primaryVar count)
              (seqZ 0 (count + 1)) h in
          (Some data, h')
      end
  end.

(** *** Vocabulary of the properties *)

(** The keys a formula result writes into the point. *)
Definition assigns (outs : list OutputVariable.t) (resultRaw : JSValue)
    (key : string) : Prop :=
  match resultRaw with
  | VObject props => key ∈ props.*1
  | VPrim (PNumber _) => key = singleOutputSymbol outs
  | VPrim _ => False
  end.

(** [p] is the point the loop pushes for sample index [i], for some
    successful evaluation of the formula on that sample. *)
Definition emittedAt (sch : SimulationSchema.t) (primaryVar : VariableDef.t)
    (variables : gmap string number) (count i : Z) (p : DataPoint) : Prop :=
  let x := currentX (minVal primaryVar) (stepSize primaryVar count) i in
  let ctx := contextVars variables primaryVar x in
  let outs := default [] (SimulationSchema.outputs sch) in
  ∃ h r,
    (callFunction (SimulationSchema.jsFormula sch) ctx h).1 = Normal r
    ∧ p = makePoint primaryVar outs x ctx r
    ∧ (¬ assigns outs r (VariableDef.symbol primaryVar) →
       p !! VariableDef.symbol primaryVar = Some x).

(** The formula's outcome is a function of its arguments alone. *)
Definition readsNoHostState (jsFormula : string) : Prop :=
  ∀ ctx h1 h2,
    (callFunction jsFormula ctx h1).1 = (callFunction jsFormula ctx h2).1.

(** The formula throws on every invocation. *)
Definition alwaysThrows (jsFormula : string) : Prop :=
  ∀ ctx h, (callFunction jsFormula ctx h).1 = Throw.

(** The formula returns on every invocation. *)
Definition neverThrows (jsFormula : string) : Prop :=
  ∀ ctx h, ∃ r, (callFunction jsFormula ctx h).1 = Normal r.

(** The three numbers the intersection pass reads from a point for one
    pair of lines. *)
Definition readings (primarySymbol : string) (lineA lineB : OutputVariable.t)
    (p : DataPoint) : number * number * number :=
  (NumberAt p primarySymbol,
   NumberAt p (OutputVariable.symbol lineA),
   NumberAt p (OutputVariable.symbol lineB)).

(** ** Properties of an assignment to a property *)

Lemma OrdinarySet_stored obj key v :
  key ≠ "__proto__" ∨ is_Some (obj !! key) →
  OrdinarySet obj key v = <[key := v]> obj.
Proof.
  intros [Hne|[w Hw]]; unfold OrdinarySet.
  - by rewrite decide_False.
  - rewrite Hw. by case_decide.
Qed.

Lemma OrdinarySet_ignored obj key v :
  key = "__proto__" → obj !! key = None → OrdinarySet obj key v = obj.
Proof.
  intros Hkey Hnone. unfold OrdinarySet.
  by rewrite decide_True, Hnone.
Qed.

Lemma OrdinarySet_lookup_ne obj key v k :
  k ≠ key → OrdinarySet obj key v !! k = obj !! k.
Proof.
  intros Hne. unfold OrdinarySet.
  case_decide; [destruct (obj !! key)|];
    by rewrite ?lookup_insert_ne.
Qed.

(** An assignment never removes a key, and adds at most its own. *)
Lemma OrdinarySet_is_Some obj key v k :
  is_Some (OrdinarySet obj key v !! k)
  ↔ is_Some (obj !! k) ∨ (k = key ∧ key ≠ "__proto__").
Proof.
  destruct (decide (k = key)) as [->|Hne].
  - destruct (decide (key = "__proto__")) as [Hp|Hp].
    + destruct (obj !! key) as [w|] eqn:Hw.
      * rewrite OrdinarySet_stored by (right; by rewrite Hw).
        rewrite lookup_insert_eq. split; [by left|by eexists].
      * rewrite OrdinarySet_ignored, Hw by done. split; [by left|].
        intros [H|[_ H]]; [done|by destruct H].
    + rewrite OrdinarySet_stored by (by left).
      rewrite lookup_insert_eq. split; [by right|by eexists].
  - rewrite OrdinarySet_lookup_ne by done. split; [by left|].
    by intros [H|[H _]].
Qed.

(** ** Properties of the sampling loop *)

(** The spread of [contextVars] over [{ [symbol]: currentX }] is
    [contextVars] itself: it already binds the primary symbol to that value. *)
Lemma base_point pv variables x :
  contextVars variables pv x ∪ {[VariableDef.symbol pv := x]}
  = contextVars variables pv x.
Proof.
  unfold contextVars. apply map_eq. intros k.
  rewrite lookup_union.
  destruct (decide (VariableDef.symbol pv = k)) as [->|Hne].
  - by rewrite lookup_insert_eq, lookup_singleton_eq.
  - rewrite lookup_insert_ne, lookup_singleton_ne by done.
    by destruct (variables !! k).
Qed.

Lemma sampleLoop_cons f variables pv outs lo st i rest h :
  sampleLoop f variables pv outs lo st (i :: rest) h =
    let x := currentX lo st i in
    let ctx := contextVars variables pv x in
    let call := callFunction f ctx h in
    let tail := sampleLoop f variables pv outs lo st rest call.2 in
    (match call.1 with
     | Normal r => makePoint pv outs x ctx r :: tail.1
     | Throw => tail.1
     end, tail.2).
Proof.
  cbn [sampleLoop].
  destruct (callFunction _ _ _) as [c h1]. cbn [fst snd].
  destruct (sampleLoop _ _ _ _ _ _ _ _) as [d h2].
  by destruct c.
Qed.

Lemma sampleLoop_app f variables pv outs lo st is1 is2 h :
  sampleLoop f variables pv outs lo st (is1 ++ is2) h =
    let first := sampleLoop f variables pv outs lo st is1 h in
    let second := sampleLoop f variables pv outs lo st is2 first.2 in
    (first.1 ++ second.1, second.2).
Proof.
  revert h. induction is1 as [|i is1 IH]; intros h.
  - cbn. by destruct (sampleLoop _ _ _ _ _ _ _ _).
  - rewrite <- app_comm_cons, !sampleLoop_cons. cbn zeta.
    rewrite IH. cbn [fst snd].
    by destruct (callFunction _ _ _).1.
Qed.

Lemma sampleLoop_length f variables pv outs lo st indices h :
  (length (sampleLoop f variables pv outs lo st indices h).1
   ≤ length indices)%nat.
Proof.
  revert h. induction indices as [|i rest IH]; intros h; [done|].
  rewrite sampleLoop_cons. cbn zeta. cbn [fst].
  destruct (callFunction _ _ _) as [[r|] h1]; cbn [fst snd length];
    specialize (IH h1); lia.
Qed.

Lemma sampleLoop_alwaysThrows f variables pv outs lo st indices h :
  alwaysThrows f →
  (sampleLoop f variables pv outs lo st indices h).1 = [].
Proof.
  intros Hthrow. revert h.
  induction indices as [|i rest IH]; intros h; [done|].
  rewrite sampleLoop_cons. cbn zeta. cbn [fst].
  by rewrite Hthrow, IH.
Qed.

(** A result leaves untouched every key it does not assign. *)
Lemma storeResult_lookup_other outs r point k :
  ¬ assigns outs r k → storeResult outs r point !! k = point !! k.
Proof.
  destruct r as [[| | |x|]|props]; cbn [storeResult assigns]; try done.
  - intros Hne. by rewrite OrdinarySet_lookup_ne.
  - revert point. induction props as [|[k' v] props IH]; intros point Hk.
    + done.
    + cbn [foldl fst snd]. rewrite IH.
      * rewrite OrdinarySet_lookup_ne; [done|].
        intros ->. apply Hk. cbn. left.
      * intros Hin. apply Hk. cbn. by right.
Qed.

(** Every point of the dataset comes from one sample index, and the indices
    of the emitted points are a subsequence of the indices visited. *)
Lemma sampleLoop_emitted sch pv variables count indices h :
  ∃ js, js `sublist_of` indices
        ∧ Forall2 (emittedAt sch pv variables count) js
            (sampleLoop (SimulationSchema.jsFormula sch) variables pv
               (default [] (SimulationSchema.outputs sch))
               (minVal pv) (stepSize pv count) indices h).1.
Proof.
  revert h. induction indices as [|i rest IH]; intros h.
  - exists []. split; [constructor|]. cbn. constructor.
  - rewrite sampleLoop_cons. cbn zeta. cbn [fst].
    destruct (callFunction _ _ h) as [c h1] eqn:Hcall. cbn [fst snd].
    destruct (IH h1) as (js & Hsub & Hall).
    destruct c as [r|].
    + exists (i :: js). split; [by constructor|].
      constructor; [|done].
      exists h, r. rewrite Hcall. split; [done|]. split; [done|].
      intros Hk. unfold makePoint.
      rewrite storeResult_lookup_other, base_point by done.
      apply lookup_insert_eq.
    + exists js. split; [by constructor|done].
Qed.

(** Without reads of the host state the emitted points do not depend on
    the state the loop starts in. *)
Lemma sampleLoop_readsNoHostState f variables pv outs lo st indices h1 h2 :
  readsNoHostState f →
  (sampleLoop f variables pv outs lo st indices h1).1
  = (sampleLoop f variables pv outs lo st indices h2).1.
Proof.
  intros Hpure. revert h1 h2.
  induction indices as [|i rest IH]; intros h1 h2; [done|].
  rewrite !sampleLoop_cons. cbn zeta. cbn [fst].
  rewrite (Hpure _ h1 h2).
  destruct (callFunction _ _ h2).1; [f_equal|]; apply IH.
Qed.

Lemma intersections_nil outs hiddenLines primary :
  intersections [] outs hiddenLines primary = [].
Proof.
  unfold intersections. destruct primary; [|done].
  rewrite decide_True; [done|by left].
Qed.

(** When every sample evaluates, the dataset has one point per index. *)
Lemma sampleLoop_all_normal f variables pv outs lo st indices h
    (result : Z → JSValue) :
  (∀ i h', i ∈ indices →
     (callFunction f (contextVars variables pv (currentX lo st i)) h').1
     = Normal (result i)) →
  (sampleLoop f variables pv outs lo st indices h).1
  = map (λ i, makePoint pv outs (currentX lo st i)
                (contextVars variables pv (currentX lo st i)) (result i))
        indices.
Proof.
  revert h. induction indices as [|i rest IH]; intros h Hall; [done|].
  rewrite sampleLoop_cons. cbn zeta. cbn [fst map].
  rewrite Hall by left. f_equal. apply IH.
  intros j h' Hj. apply Hall. by right.
Qed.

(** When the outcome at each index does not depend on the host state, the
    dataset holds the points of the indices whose evaluation returned. *)
Lemma sampleLoop_outcomes f variables pv outs lo st indices h
    (outcome : Z → Completion JSValue) :
  (∀ i h', i ∈ indices →
     (callFunction f (contextVars variables pv (currentX lo st i)) h').1
     = outcome i) →
  (sampleLoop f variables pv outs lo st indices h).1
  = omap (λ i, match outcome i with
               | Normal r =>
                   Some (makePoint pv outs (currentX lo st i)
                           (contextVars variables pv (currentX lo st i)) r)
               | Throw => None
               end)
         indices.
Proof.
  revert h. induction indices as [|i rest IH]; intros h Hall; [done|].
  rewrite sampleLoop_cons. cbn zeta. cbn [fst omap list_omap].
  rewrite Hall by left.
  rewrite (IH (callFunction f (contextVars variables pv (currentX lo st i)) h).2)
    by (intros j h' Hj; apply Hall; by right).
  by destruct (outcome i).
Qed.

(** ** The earlier [generateDataset] against the memoized engine *)

Lemma generateDatasetLoop_cons sch variables pv lo st i rest h :
  generateDatasetLoop sch variables pv lo st (i :: rest) h =
    let x := currentX lo st i in
    let ctx := contextVars variables pv x in
    let call := callFunction (SimulationSchema.jsFormula sch) ctx h in
    let tail := generateDatasetLoop sch variables pv lo st rest call.2 in
    (match call.1 with
     | Normal r =>
         match storeResultLegacy (SimulationSchema.outputs sch) r
                 (ctx ∪ {[VariableDef.symbol pv := x]}) with
         | Normal point => point :: tail.1
         | Throw => tail.1
         end
     | Throw => tail.1
     end, tail.2).
Proof.
  cbn [generateDatasetLoop].
  destruct (callFunction _ _ _) as [c h1]. cbn [fst snd].
  destruct (generateDatasetLoop _ _ _ _ _ _ _) as [d h2].
  destruct c as [r|]; [|done].
  by destruct (storeResultLegacy _ _ _).
Qed.

Lemma generateDatasetLoop_length sch variables pv lo st indices h :
  (length (generateDatasetLoop sch variables pv lo st indices h).1
   ≤ length indices)%nat.
Proof.
  revert h. induction indices as [|i rest IH]; intros h; [done|].
  rewrite generateDatasetLoop_cons. cbn zeta. cbn [fst].
  destruct (callFunction _ _ _) as [[r|] h1]; cbn [fst snd].
  - destruct (storeResultLegacy _ _ _); cbn [length];
      specialize (IH h1); lia.
  - specialize (IH h1). cbn [length]. lia.
Qed.

Lemma storeResultLegacy_declared outs r point :
  storeResultLegacy (Some outs) r point = Normal (storeResult outs r point).
Proof. by destruct r as [[]|]. Qed.

(** With declared outputs the two loops are the same function. *)
Lemma generateDatasetLoop_sampleLoop sch outs variables pv lo st indices h :
  SimulationSchema.outputs sch = Some outs →
  generateDatasetLoop sch variables pv lo st indices h
  = sampleLoop (SimulationSchema.jsFormula sch) variables pv outs lo st
               indices h.
Proof.
  intros Houts. revert h.
  induction indices as [|i rest IH]; intros h; [done|].
  rewrite generateDatasetLoop_cons, sampleLoop_cons. cbn zeta.
  rewrite Houts, IH.
  destruct (callFunction _ _ _).1; [|done].
  by rewrite storeResultLegacy_declared.
Qed.

(** For a positive count and declared outputs, [generateDataset] sets the
    dataset the memoized engine computes. *)
Lemma generateDataset_dataGenerationEngine sch outs pv vs variables count h :
  0 < count →
  SimulationSchema.outputs sch = Some outs →
  SimulationSchema.independentVariables sch = Some (pv :: vs) →
  generateDataset (Some sch) variables count h
  = let g := dataGenerationEngine (Some sch) variables count h in
    (Some (generatedData g.1), g.2).
Proof.
  intros Hcount Houts Hvars. unfold generateDataset, dataGenerationEngine.
  rewrite Hvars, Houts. cbn [default from_option id].
  unfold safeDataCount. rewrite (proj2 (Z.ltb_lt 0 count) Hcount).
  rewrite (generateDatasetLoop_sampleLoop sch outs) by done.
  by destruct (sampleLoop _ _ _ _ _ _ _ _).
Qed.

(** ** Properties of the intersection pass *)

(** A segment is judged on the readings of its two points only. *)
Lemma crossing_readings ps lineA lineB p1 p2 q1 q2 :
  readings ps lineA lineB p1 = readings ps lineA lineB q1 →
  readings ps lineA lineB p2 = readings ps lineA lineB q2 →
  crossing ps lineA lineB p1 p2 = crossing ps lineA lineB q1 q2.
Proof.
  unfold readings, crossing. intros [= -> -> ->] [= -> -> ->]. done.
Qed.

Lemma segmentLoop_cons ps lineA lineB p1 p2 rest :
  segmentLoop ps lineA lineB (p1 :: p2 :: rest)
  = crossing ps lineA lineB p1 p2 ++ segmentLoop ps lineA lineB (p2 :: rest).
Proof. done. Qed.

Lemma segmentLoop_readings ps lineA lineB data1 data2 :
  map (readings ps lineA lineB) data1 = map (readings ps lineA lineB) data2 →
  segmentLoop ps lineA lineB data1 = segmentLoop ps lineA lineB data2.
Proof.
  revert data2. induction data1 as [|p1 rest1 IH]; intros [|q1 rest2] Heq;
    try done.
  cbn [map] in Heq.
  assert (readings ps lineA lineB p1 = readings ps lineA lineB q1) as H1
    by congruence.
  assert (map (readings ps lineA lineB) rest1
          = map (readings ps lineA lineB) rest2) as Hrest by congruence.
  destruct rest1 as [|p2 rest1], rest2 as [|q2 rest2]; try done.
  rewrite !segmentLoop_cons. f_equal; [|by apply IH].
  apply crossing_readings; [done|]. cbn [map] in Hrest. congruence.
Qed.

(** A segment with a NaN reading on either line, at either end, pushes no
    marker. *)
Lemma crossing_NaN_skipped ps lineA lineB p1 p2 :
  isNaN (NumberAt p1 (OutputVariable.symbol lineA)) = true
  ∨ isNaN (NumberAt p1 (OutputVariable.symbol lineB)) = true
  ∨ isNaN (NumberAt p2 (OutputVariable.symbol lineA)) = true
  ∨ isNaN (NumberAt p2 (OutputVariable.symbol lineB)) = true →
  crossing ps lineA lineB p1 p2 = [].
Proof.
  unfold crossing. intros [-> | [-> | [-> | ->]]];
    rewrite ?orb_true_r; done.
Qed.

(** An infinite reading at the first point of a segment makes [diff1]
    infinite or NaN, and the test [Math.abs(diff1) < 1000] then fails: no
    marker. The guard on NaN and this test together cover every reading that
    is not finite, except an infinite one at the second point. *)
Lemma crossing_first_point_not_finite ps lineA lineB p1 p2 :
  isFinite (NumberAt p1 (OutputVariable.symbol lineA)) = false
  ∨ isFinite (NumberAt p1 (OutputVariable.symbol lineB)) = false →
  crossing ps lineA lineB p1 p2 = [].
Proof.
  intros Hinf. unfold crossing.
  destruct (isNaN _ || isNaN _ || isNaN _ || isNaN _); [done|].
  assert (ltb (abs (sub (NumberAt p1 (OutputVariable.symbol lineA))
                        (NumberAt p1 (OutputVariable.symbol lineB))))
              (ofZ 1000) = false) as ->.
  { destruct (NumberAt p1 (OutputVariable.symbol lineA)) as [sa|sa| |sa ma ea],
             (NumberAt p1 (OutputVariable.symbol lineB)) as [sb|sb| |sb mb eb];
      cbn in Hinf; try (by destruct Hinf); try reflexivity;
      by destruct sa, sb. }
  by rewrite andb_false_r.
Qed.

(** ** The claims on the engine *)

(** What the intersection pass reads from a point of the two-lines formula
    does not depend on the binding. *)
Lemma readings_linesPoint pv outs lineA lineB variables x :
  VariableDef.symbol pv = "x" →
  OutputVariable.symbol lineA = "A" →
  OutputVariable.symbol lineB = "B" →
  readings "x" lineA lineB
    (makePoint pv outs x (contextVars variables pv x) (Examples.linesResult x))
  = (x,
     parseFloat (toFixed (mul (ofZ 2) x) 4),
     parseFloat (toFixed (add (mul (ofZ (-2)) x) (ofZ 10)) 4)).
Proof.
  intros Hx HA HB. unfold readings, makePoint, NumberAt.
  rewrite base_point, HA, HB. unfold contextVars. rewrite Hx.
  cbn [Examples.linesResult storeResult foldl fst snd ToNumber].
  rewrite !OrdinarySet_stored by (by left).
  rewrite lookup_insert_ne, lookup_insert_ne, lookup_insert_eq by done.
  rewrite lookup_insert_ne, lookup_insert_eq by done.
  by rewrite lookup_insert_eq.
Qed.

(** C1. Two outputs A and B, a formula returning [{A: 2*x, B: -2*x+10}],
    x swept from 0 to 10 with resolution 10, both outputs visible: the
    intersection pass pushes exactly one marker, at x = 2.5 and y = 5, for
    every binding and every other content of the schema. *)
Theorem C1_two_lines_cross_once
    sch pv vs lineA lineB variables hiddenLines h :
  SimulationSchema.independentVariables sch = Some (pv :: vs) →
  VariableDef.symbol pv = "x" →
  VariableDef.min pv = Some (ofZ 0) →
  VariableDef.max pv = Some (ofZ 10) →
  SimulationSchema.outputs sch = Some [lineA; lineB] →
  OutputVariable.symbol lineA = "A" →
  OutputVariable.symbol lineB = "B" →
  (∀ ctx h' x, ctx !! "x" = Some x →
     (callFunction (SimulationSchema.jsFormula sch) ctx h').1
     = Normal (Examples.linesResult x)) →
  "A" ∉ hiddenLines → "B" ∉ hiddenLines →
  (UniversalSimulator (Some sch) variables 10 hiddenLines h).1.2
  = [ Intersection.mk (decimal 25 1) (ofZ 5) "Cruce" "#EF4444" ].
Proof.
  intros Hvars Hx Hmin Hmax Houts HA HB Hformula HvisA HvisB.
  unfold UniversalSimulator, dataGenerationEngine.
  rewrite Hvars, Houts. cbn [default from_option id].
  change (safeDataCount 10) with 10.
  pose proof (sampleLoop_all_normal (SimulationSchema.jsFormula sch)
                variables pv [lineA; lineB] (minVal pv) (stepSize pv 10)
                (seqZ 0 (10 + 1)) h
                (λ i, Examples.linesResult
                        (currentX (minVal pv) (stepSize pv 10) i))) as Hdata.
  destruct (sampleLoop _ _ _ _ _ _ _ _) as [data h'].
  cbn [fst snd generatedData outputs primaryAxisVar] in *.
  rewrite Hdata; clear Hdata.
  2:{ intros i h0 _. apply Hformula. unfold contextVars.
      rewrite Hx. apply lookup_insert_eq. }
  unfold intersections. rewrite decide_False.
  2:{ rewrite length_map, length_seqZ. cbn. lia. }
  unfold activeOutputs.
  rewrite filter_cons_True by (by rewrite HA).
  rewrite filter_cons_True by (by rewrite HB).
  rewrite filter_nil. cbn [outerLoop innerLoop]. rewrite !app_nil_r.
  rewrite Hx.
  rewrite (segmentLoop_readings "x" lineA lineB _
             (map (λ i, makePoint pv [lineA; lineB]
                          (currentX (minVal pv) (stepSize pv 10) i)
                          (contextVars ∅ pv
                             (currentX (minVal pv) (stepSize pv 10) i))
                          (Examples.linesResult
                             (currentX (minVal pv) (stepSize pv 10) i)))
                  (seqZ 0 (10 + 1)))).
  2:{ rewrite !map_map. apply map_ext. intros i.
      by rewrite !readings_linesPoint. }
  unfold minVal, maxVal, stepSize, contextVars.
  destruct pv as [pname psym pmin pmax pdef pstep pdesc].
  destruct lineA as [aname asym aunit acolor avis].
  destruct lineB as [bname bsym bunit bcolor bvis].
  cbn in Hx, Hmin, Hmax, HA, HB. subst.
  vm_compute. reflexivity.
Qed.


(** C2 (amended). For every schema, binding and resolution N > 0 the loop
    emits at most N+1 points, and the emitted points follow the sample
    indices in increasing order: the indices of the emitted points are a
    subsequence of 0, 1, ..., N, and the point emitted for index i is built
    from x = parseFloat((min + i*step).toFixed(2)), which it holds under the
    primary symbol unless the formula's own result assigns that key. The
    bound holds for the earlier [generateDataset] as well. *)
Theorem C2_at_most_N_plus_1_points_in_index_order
    schema variables dataCount h :
  0 < dataCount →
  let g := (dataGenerationEngine schema variables dataCount h).1 in
  Z.of_nat (length (generatedData g)) ≤ dataCount + 1
  ∧ (∀ sch pv, schema = Some sch → primaryAxisVar g = Some pv →
       ∃ js, js `sublist_of` seqZ 0 (dataCount + 1)
             ∧ Forall2 (emittedAt sch pv variables dataCount) js
                       (generatedData g))
  ∧ (∀ data, (generateDataset schema variables dataCount h).1 = Some data →
       Z.of_nat (length data) ≤ dataCount + 1).
Proof.
  intros Hcount g. subst g. unfold dataGenerationEngine, generateDataset.
  unfold safeDataCount. rewrite (proj2 (Z.ltb_lt 0 dataCount) Hcount).
  destruct schema as [sch|]; [|cbn; split; [lia|split; [done|done]]].
  destruct (SimulationSchema.independentVariables sch) as [[|pv vs]|];
    [cbn; split; [lia|split; [done|done]]
    | |cbn; split; [lia|split; [done|done]]].
  split; [|split].
  - pose proof (sampleLoop_length (SimulationSchema.jsFormula sch) variables
                  pv (default [] (SimulationSchema.outputs sch)) (minVal pv)
                  (stepSize pv dataCount) (seqZ 0 (dataCount + 1)) h) as Hlen.
    destruct (sampleLoop _ _ _ _ _ _ _ _) as [data h'].
    cbn [fst generatedData] in *. rewrite length_seqZ in Hlen. lia.
  - intros sch' pv' [= <-].
    pose proof (sampleLoop_emitted sch pv variables dataCount
                  (seqZ 0 (dataCount + 1)) h) as Hemit.
    destruct (sampleLoop _ _ _ _ _ _ _ _) as [data h'].
    cbn [fst generatedData primaryAxisVar] in *. by intros [= <-].
  - intros data.
    pose proof (generateDatasetLoop_length sch variables pv (minVal pv)
                  (stepSize pv dataCount) (seqZ 0 (dataCount + 1)) h) as Hlen.
    destruct (generateDatasetLoop _ _ _ _ _ _ _) as [data' h'].
    cbn [fst] in *. intros [= <-]. rewrite length_seqZ in Hlen. lia.
Qed.

(** C3. A formula that throws on every invocation yields an empty dataset
    and an empty intersection list, as plain values: nothing is raised.
    More generally, a sample whose evaluation throws is the only thing
    lost: the points emitted before it are kept, that sample adds nothing,
    and the loop goes on with the indices after it; and a sample whose
    evaluation returns adds its point at that place. So, when the outcome
    at each index does not depend on the host state, the dataset holds
    exactly the points of the indices at which the evaluation returned, in
    the order of the indices. *)
Theorem C3_evaluation_failures_absorbed
    schema variables dataCount hiddenLines h :
  ((∀ sch, schema = Some sch →
           alwaysThrows (SimulationSchema.jsFormula sch)) →
   (UniversalSimulator schema variables dataCount hiddenLines h).1 = ([], []))
  ∧ (∀ f pv outs lo st before i after,
       let first := sampleLoop f variables pv outs lo st before h in
       let call :=
         callFunction f (contextVars variables pv (currentX lo st i)) first.2 in
       call.1 = Throw →
       (sampleLoop f variables pv outs lo st (before ++ i :: after) h).1
       = first.1 ++ (sampleLoop f variables pv outs lo st after call.2).1)
  ∧ (∀ f pv outs lo st before i after r,
       let first := sampleLoop f variables pv outs lo st before h in
       let x := currentX lo st i in
       let ctx := contextVars variables pv x in
       let call := callFunction f ctx first.2 in
       call.1 = Normal r →
       (sampleLoop f variables pv outs lo st (before ++ i :: after) h).1
       = first.1
         ++ makePoint pv outs x ctx r
            :: (sampleLoop f variables pv outs lo st after call.2).1)
  ∧ (∀ sch pv vs (outcome : Z → Completion JSValue),
       schema = Some sch →
       SimulationSchema.independentVariables sch = Some (pv :: vs) →
       let n := safeDataCount dataCount in
       let x i := currentX (minVal pv) (stepSize pv n) i in
       (∀ i h', 0 ≤ i ≤ n →
          (callFunction (SimulationSchema.jsFormula sch)
             (contextVars variables pv (x i)) h').1
          = outcome i) →
       generatedData (dataGenerationEngine schema variables dataCount h).1
       = omap (λ i, match outcome i with
                    | Normal r =>
                        Some (makePoint pv
                                (default [] (SimulationSchema.outputs sch))
                                (x i) (contextVars variables pv (x i)) r)
                    | Throw => None
                    end)
              (seqZ 0 (n + 1))).
Proof.
  split; [|split; [|split]].
  - intros Hthrow. unfold UniversalSimulator, dataGenerationEngine.
    destruct schema as [sch|]; [|done].
    destruct (SimulationSchema.independentVariables sch) as [[|pv vs]|];
      [done| |done].
    pose proof (sampleLoop_alwaysThrows (SimulationSchema.jsFormula sch)
                  variables pv (default [] (SimulationSchema.outputs sch))
                  (minVal pv) (stepSize pv (safeDataCount dataCount))
                  (seqZ 0 (safeDataCount dataCount + 1)) h
                  (Hthrow sch eq_refl)) as Hnil.
    destruct (sampleLoop _ _ _ _ _ _ _ _) as [data h'].
    cbn in Hnil. subst data. cbn [fst generatedData outputs primaryAxisVar].
    by rewrite intersections_nil.
  - intros f pv outs lo st before i after first call Hcall.
    rewrite sampleLoop_app. cbn zeta. cbn [fst].
    rewrite sampleLoop_cons. cbn zeta. cbn [fst].
    fold first. fold call. by rewrite Hcall.
  - intros f pv outs lo st before i after r first x ctx call Hcall.
    rewrite sampleLoop_app. cbn zeta. cbn [fst].
    rewrite sampleLoop_cons. cbn zeta. cbn [fst].
    fold first. fold x. fold ctx. fold call. by rewrite Hcall.
  - intros sch pv vs outcome -> Hvars n x Houtcome.
    unfold dataGenerationEngine. rewrite Hvars. fold n.
    pose proof (sampleLoop_outcomes (SimulationSchema.jsFormula sch)
                  variables pv (default [] (SimulationSchema.outputs sch))
                  (minVal pv) (stepSize pv n) (seqZ 0 (n + 1)) h outcome)
      as Hdata.
    destruct (sampleLoop _ _ _ _ _ _ _ _) as [data h'].
    cbn [fst generatedData] in *. apply Hdata.
    intros i h0 Hi. apply Houtcome. apply elem_of_seqZ in Hi. lia.
Qed.

(** C6. With fewer than two visible outputs the intersection pass returns
    the empty list, whatever the dataset holds. *)
Theorem C6_fewer_than_two_visible_outputs data outs hiddenLines primary :
  (length (activeOutputs outs hiddenLines) < 2)%nat →
  intersections data outs hiddenLines primary = [].
Proof.
  intros Hlen. unfold intersections.
  destruct primary as [pv|]; [|done].
  case_decide; [done|].
  destruct (activeOutputs outs hiddenLines) as [|lineA [|lineB rest]];
    cbn in *; [done|done|lia].
Qed.

(** C7 (amended). For a formula whose outcome is a function of its arguments
    alone, two runs with the same schema, binding, resolution and set of
    hidden lines give the same dataset and the same intersection list,
    whatever the host states they start in. *)
Theorem C7_deterministic_for_pure_formula
    schema variables dataCount hiddenLines h1 h2 :
  (∀ sch, schema = Some sch →
          readsNoHostState (SimulationSchema.jsFormula sch)) →
  (UniversalSimulator schema variables dataCount hiddenLines h1).1
  = (UniversalSimulator schema variables dataCount hiddenLines h2).1.
Proof.
  intros Hpure. unfold UniversalSimulator, dataGenerationEngine.
  destruct schema as [sch|]; [|done].
  destruct (SimulationSchema.independentVariables sch) as [[|pv vs]|];
    [done| |done].
  pose proof (sampleLoop_readsNoHostState (SimulationSchema.jsFormula sch)
                variables pv (default [] (SimulationSchema.outputs sch))
                (minVal pv) (stepSize pv (safeDataCount dataCount))
                (seqZ 0 (safeDataCount dataCount + 1)) h1 h2
                (Hpure sch eq_refl)) as Heq.
  destruct (sampleLoop _ _ _ _ _ _ _ h1) as [d1 h1'].
  destruct (sampleLoop _ _ _ _ _ _ _ h2) as [d2 h2'].
  cbn in Heq. by subst d2.
Qed.

(** C8. A schema whose list of independent variables is missing or empty
    yields the empty dataset and the empty intersection list, as plain
    values, and runs no formula (the host state is unchanged). *)
Theorem C8_no_independent_variables
    sch variables dataCount hiddenLines h :
  SimulationSchema.independentVariables sch = None
  ∨ SimulationSchema.independentVariables sch = Some [] →
  UniversalSimulator (Some sch) variables dataCount hiddenLines h
  = ([], [], h).
Proof.
  unfold UniversalSimulator, dataGenerationEngine.
  by intros [-> | ->].
Qed.

(** C9. When the formula returns a primitive that is not a number (a
    string, undefined, null, a boolean), the sample is not skipped: the point
    pushed is the context object itself, which binds the primary symbol to
    the rounded sample value and every other binding symbol to its value,
    and holds no other key, hence no output column that the binding did not
    already have. Both versions of the loop agree on this. *)
Theorem C9_non_numeric_result_keeps_bare_point
    sch variables pv outs lo st i rest h v :
  let x := currentX lo st i in
  let ctx := contextVars variables pv x in
  let call := callFunction (SimulationSchema.jsFormula sch) ctx h in
  call.1 = Normal (VPrim v) →
  (∀ r, v ≠ PNumber r) →
  (sampleLoop (SimulationSchema.jsFormula sch) variables pv outs lo st
              (i :: rest) h).1
  = ctx :: (sampleLoop (SimulationSchema.jsFormula sch) variables pv outs
                       lo st rest call.2).1
  ∧ (generateDatasetLoop sch variables pv lo st (i :: rest) h).1
    = ctx :: (generateDatasetLoop sch variables pv lo st rest call.2).1
  ∧ ctx !! VariableDef.symbol pv = Some x
  ∧ (∀ k, k ≠ VariableDef.symbol pv → ctx !! k = variables !! k)
  ∧ (∀ o, o ∈ outs →
          OutputVariable.symbol o ≠ VariableDef.symbol pv →
          variables !! OutputVariable.symbol o = None →
          ctx !! OutputVariable.symbol o = None).
Proof.
  intros x ctx call Hcall Hv.
  assert (∀ k, k ≠ VariableDef.symbol pv → ctx !! k = variables !! k)
    as Hother.
  { intros k Hk. subst ctx. unfold contextVars. by rewrite lookup_insert_ne. }
  split; [|split; [|split; [|split]]].
  - rewrite sampleLoop_cons. cbn zeta. cbn [fst].
    fold x. fold ctx. fold call. rewrite Hcall.
    unfold makePoint. fold ctx. subst ctx. rewrite base_point.
    by destruct v; [..|exfalso; by eapply Hv|].
  - rewrite generateDatasetLoop_cons. cbn zeta. cbn [fst].
    fold x. fold ctx. fold call. rewrite Hcall.
    subst ctx. rewrite base_point.
    by destruct v; [..|exfalso; by eapply Hv|].
  - subst ctx. unfold contextVars. apply lookup_insert_eq.
  - done.
  - intros o _ Hne Hnone. by rewrite Hother.
Qed.

(** C10 (amended). When the formula returns a single number, its value
    rounded to 4 decimals is assigned to the point pushed for that sample
    under the key 'y' when no output is declared, under the first declared
    output's symbol when that symbol is a non-empty string, and under 'y'
    again when that symbol is the empty string. The assignment stores the
    value under that key, 'y' included, unless the key is [__proto__] and
    the context object has no such key (neither the primary variable nor a
    symbol of the binding is called so): the point then stays the context
    object. The earlier loop does the same whenever the schema has an
    output list. *)
Theorem C10_single_number_key
    sch variables pv outs lo st i rest h r :
  let x := currentX lo st i in
  let ctx := contextVars variables pv x in
  let call := callFunction (SimulationSchema.jsFormula sch) ctx h in
  call.1 = Normal (VPrim (PNumber r)) →
  ∃ key point,
    (sampleLoop (SimulationSchema.jsFormula sch) variables pv outs lo st
                (i :: rest) h).1
    = point :: (sampleLoop (SimulationSchema.jsFormula sch) variables pv outs
                           lo st rest call.2).1
    ∧ (SimulationSchema.outputs sch = Some outs →
       (generateDatasetLoop sch variables pv lo st (i :: rest) h).1
       = point :: (generateDatasetLoop sch variables pv lo st rest call.2).1)
    ∧ (outs = [] → key = "y")
    ∧ (∀ o os, outs = o :: os → OutputVariable.symbol o ≠ "" →
               key = OutputVariable.symbol o)
    ∧ (∀ o os, outs = o :: os → OutputVariable.symbol o = "" → key = "y")
    ∧ (key ≠ "__proto__" ∨ is_Some (ctx !! key) →
       point = <[key := parseFloat (toFixed r 4)]> ctx)
    ∧ (key = "__proto__" → ctx !! key = None → point = ctx).
Proof.
  intros x ctx call Hcall.
  exists (singleOutputSymbol outs),
         (OrdinarySet ctx (singleOutputSymbol outs) (parseFloat (toFixed r 4))).
  split; [|split; [|split; [|split; [|split; [|split]]]]].
  - rewrite sampleLoop_cons. cbn zeta. cbn [fst].
    fold x. fold ctx. fold call. rewrite Hcall.
    unfold makePoint. fold ctx. subst ctx. by rewrite base_point.
  - intros Houts. rewrite generateDatasetLoop_cons. cbn zeta. cbn [fst].
    fold x. fold ctx. fold call. rewrite Hcall, Houts.
    subst ctx. by rewrite base_point.
  - by intros ->.
  - intros o os -> Hne. cbn. by rewrite decide_False.
  - intros o os -> Heq. cbn. by rewrite decide_True.
  - apply OrdinarySet_stored.
  - apply OrdinarySet_ignored.
Qed.

(** A formula that always returns the same number fills the single-output
    column of every point with it, when that column is not [__proto__]. *)
Lemma sampleLoop_constant_number f variables pv outs lo st indices h r :
  (∀ ctx h', (callFunction f ctx h').1 = Normal (VPrim (PNumber r))) →
  singleOutputSymbol outs ≠ "__proto__" →
  Forall (λ p, p !! singleOutputSymbol outs = Some (parseFloat (toFixed r 4)))
         (sampleLoop f variables pv outs lo st indices h).1.
Proof.
  intros Hconst Hkey.
  rewrite (sampleLoop_all_normal f variables pv outs lo st indices h
             (λ _, VPrim (PNumber r))) by (intros; apply Hconst).
  apply Forall_forall. intros p Hp.
  apply list_elem_of_In, in_map_iff in Hp. destruct Hp as (i & <- & _).
  unfold makePoint. cbn [storeResult].
  rewrite OrdinarySet_stored by (by left). apply lookup_insert_eq.
Qed.

(** With the key [__proto__] for the single-output column, and no variable
    of that name, a formula that returns a number leaves every point
    without that column. *)
Lemma sampleLoop_number_under_proto f variables pv outs lo st indices h :
  (∀ ctx h', ∃ r, (callFunction f ctx h').1 = Normal (VPrim (PNumber r))) →
  singleOutputSymbol outs = "__proto__" →
  VariableDef.symbol pv ≠ "__proto__" →
  variables !! "__proto__" = None →
  Forall (λ p : DataPoint, p !! "__proto__" = None)
         (sampleLoop f variables pv outs lo st indices h).1.
Proof.
  intros Hnum Hkey Hpv Hvars. revert h.
  induction indices as [|i rest IH]; intros h; [by constructor|].
  rewrite sampleLoop_cons. cbn zeta. cbn [fst].
  destruct (Hnum (contextVars variables pv (currentX lo st i)) h) as [r ->].
  constructor; [|apply IH].
  unfold makePoint. rewrite base_point. cbn [storeResult]. rewrite Hkey.
  assert (contextVars variables pv (currentX lo st i) !! "__proto__" = None)
    as Hctx by (unfold contextVars; by rewrite lookup_insert_ne).
  by rewrite OrdinarySet_ignored.
Qed.

(** C5 (amended). At schema ingestion a missing or empty formula body is
    replaced by the default ["return 0;"]; with it, and a runtime that runs
    that text to 0, every sampled point holds 0 in its single-output column,
    unless that column's key is [__proto__], which an assignment does not
    store: the points then hold nothing under it when no variable has that
    name. A non-empty body that does not contain the text "return" is not replaced:
    it is kept, with ["return "] put in front of it. A body that contains
    "return" is kept as it is. The body that results always contains
    "return". *)
Theorem C5_formula_body_defaults parsed :
  let body := ParsedResponse.jsFormula parsed in
  let sch := validationAndDefaults parsed in
  (body = None ∨ body = Some "" →
   SimulationSchema.jsFormula sch = "return 0;"
   ∧ ((∀ ctx h, (callFunction "return 0;" ctx h).1
                = Normal (VPrim (PNumber (ofZ 0)))) →
      ∀ variables dataCount h,
        let g := (dataGenerationEngine (Some sch) variables dataCount h).1 in
        let key := singleOutputSymbol (outputs g) in
        (key ≠ "__proto__" →
         Forall (λ p, p !! key = Some (ofZ 0)) (generatedData g))
        ∧ (key = "__proto__" →
           variables !! "__proto__" = None →
           (∀ pv, primaryAxisVar g = Some pv →
                  VariableDef.symbol pv ≠ "__proto__") →
           Forall (λ p : DataPoint, p !! key = None) (generatedData g))))
  ∧ (∀ f, body = Some f → f ≠ "" → includes f "return" = false →
          SimulationSchema.jsFormula sch = String.append "return " f)
  ∧ (∀ f, body = Some f → includes f "return" = true →
          SimulationSchema.jsFormula sch = f)
  ∧ includes (SimulationSchema.jsFormula sch) "return" = true.
Proof.
  intros body sch. subst sch. unfold validationAndDefaults.
  cbn [SimulationSchema.jsFormula]. fold body.
  split; [|split; [|split]].
  - intros Hbody.
    assert (defaultJsFormula body = "return 0;") as Hdef
      by (by destruct Hbody as [-> | ->]).
    split; [done|].
    intros Hzero variables dataCount h. unfold dataGenerationEngine.
    cbn [SimulationSchema.independentVariables SimulationSchema.outputs
         SimulationSchema.jsFormula default from_option id].
    fold body. rewrite Hdef.
    destruct (map defaultVariable _) as [|pv vs];
      [split; intros; by constructor|].
    pose proof (sampleLoop_constant_number "return 0;" variables pv
                  (defaultOutputs parsed) (minVal pv)
                  (stepSize pv (safeDataCount dataCount))
                  (seqZ 0 (safeDataCount dataCount + 1)) h (ofZ 0) Hzero)
      as Hall.
    pose proof (sampleLoop_number_under_proto "return 0;" variables pv
                  (defaultOutputs parsed) (minVal pv)
                  (stepSize pv (safeDataCount dataCount))
                  (seqZ 0 (safeDataCount dataCount + 1)) h) as Hnone.
    destruct (sampleLoop _ _ _ _ _ _ _ _) as [data h'].
    cbn [fst generatedData outputs primaryAxisVar] in *. split.
    + exact Hall.
    + intros Hkey Hvars Hpv. rewrite Hkey. apply Hnone; [|done| |done].
      * intros ctx h0. exists (ofZ 0). apply Hzero.
      * by apply Hpv.
  - intros f -> Hne Hnot. unfold defaultJsFormula.
    destruct f as [|c f]; [done|]. cbn [orElse]. by rewrite Hnot.
  - intros f -> Hinc. unfold defaultJsFormula.
    destruct f as [|c f]; [done|]. cbn [orElse]. by rewrite Hinc.
  - unfold defaultJsFormula.
    destruct (includes (orElse body "return 0;") "return") eqn:Hinc; done.
Qed.

(** ** Further properties of the intersection pass *)

Lemma activeOutputs_more_hidden outs (hidden1 hidden2 : gset string) :
  hidden1 ⊆ hidden2 →
  activeOutputs outs hidden2 `sublist_of` activeOutputs outs hidden1.
Proof.
  intros Hsub. unfold activeOutputs.
  induction outs as [|o outs IH]; [done|].
  rewrite !filter_cons.
  destruct (decide (OutputVariable.symbol o ∉ hidden2)) as [Hvis2|Hhid2].
  - rewrite decide_True by (intros Hin; apply Hvis2, Hsub, Hin).
    by constructor.
  - destruct (decide (OutputVariable.symbol o ∉ hidden1)); [|done].
    by constructor.
Qed.

Lemma innerLoop_sublist ps lineA others1 others2 data :
  others1 `sublist_of` others2 →
  innerLoop ps lineA others1 data `sublist_of` innerLoop ps lineA others2 data.
Proof.
  induction 1 as [|lineB l1 l2 _ IH|lineB l1 l2 _ IH]; cbn [innerLoop].
  - done.
  - by apply sublist_app.
  - by apply sublist_inserts_l.
Qed.

Lemma outerLoop_sublist ps active1 active2 data :
  active1 `sublist_of` active2 →
  outerLoop ps active1 data `sublist_of` outerLoop ps active2 data.
Proof.
  induction 1 as [|lineA l1 l2 Hsub IH|lineA l1 l2 _ IH]; cbn [outerLoop].
  - done.
  - apply sublist_app; [by apply innerLoop_sublist|done].
  - by apply sublist_inserts_l.
Qed.

(** X8. Hiding lines never adds a marker: with more lines hidden the
    intersection list is a subsequence of what it was. In particular,
    hiding one visible line by [toggleLineVisibility] only removes
    markers. *)
Theorem intersections_shrink_when_hiding
    data outs (hidden1 hidden2 : gset string) primary :
  hidden1 ⊆ hidden2 →
  intersections data outs hidden2 primary
    `sublist_of` intersections data outs hidden1 primary
  ∧ (∀ symbol, symbol ∉ hidden1 →
       intersections data outs (toggleLineVisibility hidden1 symbol) primary
         `sublist_of` intersections data outs hidden1 primary).
Proof.
  assert (∀ h1 h2 : gset string, h1 ⊆ h2 →
            intersections data outs h2 primary
              `sublist_of` intersections data outs h1 primary) as Hmono.
  { intros h1 h2 Hsub. unfold intersections.
    destruct primary as [pv|]; [|done]. case_decide; [done|].
    by apply outerLoop_sublist, activeOutputs_more_hidden. }
  intros Hsub. split; [by apply Hmono|].
  intros symbol Hvisible. apply Hmono. unfold toggleLineVisibility.
  rewrite decide_False by done. intros x Hx.
  apply elem_of_union. by left.
Qed.

Lemma crossing_length ps lineA lineB p1 p2 :
  (length (crossing ps lineA lineB p1 p2) ≤ 1)%nat.
Proof.
  unfold crossing. destruct (_ || _); [cbn; lia|].
  destruct (_ && _); cbn; lia.
Qed.

Lemma crossing_fixed_label ps lineA lineB p1 p2 :
  Forall (λ m, Intersection.label m = "Cruce"
               ∧ Intersection.color m = "#EF4444")
         (crossing ps lineA lineB p1 p2).
Proof.
  unfold crossing. destruct (_ || _); [constructor|].
  destruct (_ && _); repeat constructor.
Qed.

Lemma segmentLoop_length ps lineA lineB data :
  (length (segmentLoop ps lineA lineB data) ≤ length data - 1)%nat.
Proof.
  induction data as [|p1 [|p2 rest] IH]; [done|done|].
  rewrite segmentLoop_cons, length_app.
  pose proof (crossing_length ps lineA lineB p1 p2).
  cbn [length] in *. lia.
Qed.

Lemma segmentLoop_fixed_label ps lineA lineB data :
  Forall (λ m, Intersection.label m = "Cruce"
               ∧ Intersection.color m = "#EF4444")
         (segmentLoop ps lineA lineB data).
Proof.
  induction data as [|p1 [|p2 rest] IH]; [constructor|constructor|].
  rewrite segmentLoop_cons. apply Forall_app.
  split; [apply crossing_fixed_label|exact IH].
Qed.

Lemma innerLoop_length ps lineA others data :
  (length (innerLoop ps lineA others data)
   ≤ length others * (length data - 1))%nat.
Proof.
  induction others as [|lineB rest IH]; [done|].
  cbn [innerLoop length]. rewrite length_app.
  pose proof (segmentLoop_length ps lineA lineB data). lia.
Qed.

Lemma outerLoop_length ps active data :
  (2 * length (outerLoop ps active data)
   ≤ length active * (length active - 1) * (length data - 1))%nat.
Proof.
  induction active as [|lineA rest IH]; [done|].
  cbn [outerLoop length]. rewrite length_app.
  pose proof (innerLoop_length ps lineA rest data) as Hinner.
  replace (S (length rest) - 1)%nat with (length rest) by lia.
  revert IH Hinner.
  generalize (length (innerLoop ps lineA rest data))
             (length (outerLoop ps rest data)) (length data - 1)%nat.
  intros a b n. destruct (length rest) as [|w]; [lia|].
  replace (S w - 1)%nat with w by lia. nia.
Qed.

Lemma outerLoop_fixed_label ps active data :
  Forall (λ m, Intersection.label m = "Cruce"
               ∧ Intersection.color m = "#EF4444")
         (outerLoop ps active data).
Proof.
  induction active as [|lineA rest IH]; [constructor|].
  cbn [outerLoop]. apply Forall_app. split; [|exact IH].
  clear IH. induction rest as [|lineB rest IH]; [constructor|].
  cbn [innerLoop]. apply Forall_app.
  split; [apply segmentLoop_fixed_label|exact IH].
Qed.

(** X9. The pass pushes at most one marker per pair of visible lines and
    per pair of adjacent points: with V visible lines and n points there
    are at most V(V-1)/2 * (n-1) markers, none for a dataset of one point.
    Every marker carries the label "Cruce" and the colour "#EF4444". *)
Theorem intersections_bounded data outs hiddenLines primary :
  let markers := intersections data outs hiddenLines primary in
  let visible := length (activeOutputs outs hiddenLines) in
  (2 * length markers ≤ visible * (visible - 1) * (length data - 1))%nat
  ∧ Forall (λ m, Intersection.label m = "Cruce"
                 ∧ Intersection.color m = "#EF4444") markers.
Proof.
  intros markers visible. subst markers visible. unfold intersections.
  destruct primary as [pv|]; [|split; [apply Nat.le_0_l|constructor]].
  case_decide; [split; [apply Nat.le_0_l|constructor]|].
  split; [apply outerLoop_length|apply outerLoop_fixed_label].
Qed.

Lemma sub_diag y : isFinite y = true → sub y y = S754_zero false.
Proof.
  destruct y as [s|s| |s m e]; try done; intros _.
  - by destruct s.
  - unfold sub, SFsub. by rewrite Z.sub_diag.
Qed.

Lemma crossing_coincident ps lineA lineB p1 p2 :
  NumberAt p1 (OutputVariable.symbol lineA)
  = NumberAt p1 (OutputVariable.symbol lineB) →
  NumberAt p2 (OutputVariable.symbol lineA)
  = NumberAt p2 (OutputVariable.symbol lineB) →
  isFinite (NumberAt p1 (OutputVariable.symbol lineA)) = true →
  isFinite (NumberAt p2 (OutputVariable.symbol lineA)) = true →
  crossing ps lineA lineB p1 p2 = [].
Proof.
  intros H1 H2 Hfin1 Hfin2. unfold crossing. rewrite <- H1, <- H2.
  rewrite !sub_diag by done.
  by destruct (isNaN _ || isNaN _ || isNaN _ || isNaN _).
Qed.

(** X10. Two lines that hold the same finite value at every point never
    produce a marker, however often they touch. *)
Theorem coincident_lines_never_cross ps lineA lineB data :
  Forall (λ p, NumberAt p (OutputVariable.symbol lineA)
               = NumberAt p (OutputVariable.symbol lineB)
               ∧ isFinite (NumberAt p (OutputVariable.symbol lineA)) = true)
         data →
  segmentLoop ps lineA lineB data = [].
Proof.
  induction data as [|p1 [|p2 rest] IH]; [done|done|].
  intros Hall. rewrite segmentLoop_cons.
  apply Forall_cons in Hall as [[Heq1 Hfin1] Hrest].
  rewrite IH by done.
  apply Forall_cons in Hrest as [[Heq2 Hfin2] _].
  by rewrite crossing_coincident.
Qed.

(** X11. A declared output that no point of the dataset holds (the
    formula's mapping never names it) takes part in no marker, with any
    other line and on either side of the pair. *)
Theorem missing_column_never_marks ps lineA lineB data :
  Forall (λ p : DataPoint, p !! OutputVariable.symbol lineA = None) data →
  segmentLoop ps lineA lineB data = []
  ∧ segmentLoop ps lineB lineA data = [].
Proof.
  intros Hall.
  assert (∀ p : DataPoint, p ∈ data →
            isNaN (NumberAt p (OutputVariable.symbol lineA)) = true) as Hnan.
  { intros p Hp. unfold NumberAt.
    by rewrite (proj1 (Forall_forall _ _) Hall p Hp). }
  clear Hall.
  induction data as [|p1 [|p2 rest] IH]; [done|done|].
  rewrite !segmentLoop_cons.
  destruct IH as [IH1 IH2]; [intros p Hp; apply Hnan; by right|].
  rewrite IH1, IH2.
  rewrite !crossing_NaN_skipped; [done| |].
  - right. left. apply Hnan. by left.
  - left. apply Hnan. by left.
Qed.

(** ** Further properties of the sampling loop *)

Lemma sampleLoop_Forall (P : DataPoint → Prop)
    f variables pv outs lo st indices h :
  (∀ x r, P (makePoint pv outs x (contextVars variables pv x) r)) →
  Forall P (sampleLoop f variables pv outs lo st indices h).1.
Proof.
  intros HP. revert h. induction indices as [|i rest IH]; intros h.
  - constructor.
  - rewrite sampleLoop_cons. cbn zeta. cbn [fst].
    destruct (callFunction _ _ _).1; [constructor|]; auto.
Qed.

Lemma storeResult_keeps_keys outs r (point : DataPoint) k :
  is_Some (point !! k) → is_Some (storeResult outs r point !! k).
Proof.
  destruct r as [[| | |x|]|props]; cbn [storeResult]; try done.
  - intros Hk. apply OrdinarySet_is_Some. by left.
  - revert point. induction props as [|[k' v] props IH]; intros point Hk.
    + done.
    + cbn [foldl fst snd]. apply IH. apply OrdinarySet_is_Some. by left.
Qed.

(** X12. Every point of the dataset has a value for the primary symbol
    and for every symbol of the binding, whatever the formula returned. *)
Theorem points_hold_every_variable schema variables dataCount h :
  let g := (dataGenerationEngine schema variables dataCount h).1 in
  ∀ pv, primaryAxisVar g = Some pv →
    Forall (λ p : DataPoint,
              ∀ k, k = VariableDef.symbol pv ∨ is_Some (variables !! k) →
                   is_Some (p !! k))
           (generatedData g).
Proof.
  intros g pv. subst g. unfold dataGenerationEngine.
  destruct schema as [sch|]; [|done].
  destruct (SimulationSchema.independentVariables sch) as [[|pv' vs]|];
    [done| |done].
  pose proof (sampleLoop_Forall
                (λ p : DataPoint,
                   ∀ k, k = VariableDef.symbol pv' ∨ is_Some (variables !! k) →
                        is_Some (p !! k))
                (SimulationSchema.jsFormula sch) variables pv'
                (default [] (SimulationSchema.outputs sch)) (minVal pv')
                (stepSize pv' (safeDataCount dataCount))
                (seqZ 0 (safeDataCount dataCount + 1)) h) as Hall.
  destruct (sampleLoop _ _ _ _ _ _ _ _) as [data h'].
  cbn [fst generatedData primaryAxisVar] in *. intros [= <-].
  apply Hall. intros x r k Hk. unfold makePoint.
  apply storeResult_keeps_keys. rewrite base_point. unfold contextVars.
  rewrite lookup_insert. case_decide; [done|]. by destruct Hk.
Qed.

Lemma sampleLoop_length_neverThrows f variables pv outs lo st indices h :
  neverThrows f →
  length (sampleLoop f variables pv outs lo st indices h).1 = length indices.
Proof.
  intros Hnever. revert h. induction indices as [|i rest IH]; intros h.
  - done.
  - rewrite sampleLoop_cons. cbn zeta. cbn [fst].
    destruct (Hnever (contextVars variables pv (currentX lo st i)) h)
      as [r ->].
    cbn [length]. by rewrite IH.
Qed.


Lemma store_fold_other (props : list (string * JSPrimitive))
    (point : DataPoint) k :
  k ∉ props.*1 →
  foldl (λ pt kv,
           OrdinarySet pt kv.1 (parseFloat (toFixed (ToNumber kv.2) 4)))
        point props !! k
  = point !! k.
Proof.
  revert point. induction props as [|[k' v] props IH]; intros point Hk.
  - done.
  - cbn [foldl fst snd]. rewrite IH.
    + rewrite OrdinarySet_lookup_ne; [done|]. intros ->. apply Hk. cbn. left.
    + intros Hin. apply Hk. cbn. by right.
Qed.

Lemma store_fold_named (props : list (string * JSPrimitive))
    (point : DataPoint) k v :
  NoDup props.*1 → (k, v) ∈ props →
  k ≠ "__proto__" ∨ is_Some (point !! k) →
  foldl (λ pt kv,
           OrdinarySet pt kv.1 (parseFloat (toFixed (ToNumber kv.2) 4)))
        point props !! k
  = Some (parseFloat (toFixed (ToNumber v) 4)).
Proof.
  revert point.
  induction props as [|[k' v'] props IH]; intros point Hdup Hin Hkey.
  - by apply elem_of_nil in Hin.
  - cbn [fmap list_fmap fst] in Hdup. apply NoDup_cons in Hdup as [Hfresh Hdup].
    cbn [foldl fst snd]. apply elem_of_cons in Hin as [[= -> ->]|Hin].
    + rewrite store_fold_other by done.
      rewrite OrdinarySet_stored by done. apply lookup_insert_eq.
    + apply IH; [done|done|].
      destruct Hkey as [Hne|Hsome]; [by left|right].
      apply OrdinarySet_is_Some. by left.
Qed.

Lemma store_fold_proto (props : list (string * JSPrimitive))
    (point : DataPoint) :
  point !! "__proto__" = None →
  foldl (λ pt kv,
           OrdinarySet pt kv.1 (parseFloat (toFixed (ToNumber kv.2) 4)))
        point props !! "__proto__"
  = None.
Proof.
  revert point. induction props as [|[k' v] props IH]; intros point Hnone.
  - done.
  - cbn [foldl fst snd]. apply IH.
    destruct (decide (k' = "__proto__")) as [->|Hne].
    + by rewrite OrdinarySet_ignored.
    + by rewrite OrdinarySet_lookup_ne.
Qed.

(** X14. When the formula returns a mapping, the point pushed for that
    sample holds every key of the mapping with its value converted to a
    number and rounded to 4 decimals, whether or not the key is a declared
    output, and keeps the context value of every other key. The one key
    that is not stored is [__proto__], unless the context object has a key
    of that name: the point then has no such key either. *)
Theorem mapping_result_fills_columns
    f variables pv outs lo st i rest h props :
  let x := currentX lo st i in
  let ctx := contextVars variables pv x in
  let call := callFunction f ctx h in
  call.1 = Normal (VObject props) →
  NoDup props.*1 →
  ∃ point,
    (sampleLoop f variables pv outs lo st (i :: rest) h).1
    = point :: (sampleLoop f variables pv outs lo st rest call.2).1
    ∧ (∀ k v, (k, v) ∈ props →
              k ≠ "__proto__" ∨ is_Some (ctx !! k) →
              point !! k = Some (parseFloat (toFixed (ToNumber v) 4)))
    ∧ (∀ k, k ∉ props.*1 → point !! k = ctx !! k)
    ∧ (ctx !! "__proto__" = None → point !! "__proto__" = None).
Proof.
  intros x ctx call Hcall Hdup.
  exists (makePoint pv outs x ctx (VObject props)).
  split; [|split; [|split]].
  - rewrite sampleLoop_cons. cbn zeta. cbn [fst].
    fold x. fold ctx. fold call. by rewrite Hcall.
  - intros k v Hin Hkey. unfold makePoint. cbn [storeResult].
    subst ctx. rewrite base_point. by apply store_fold_named.
  - intros k Hk. unfold makePoint. cbn [storeResult].
    rewrite store_fold_other by done. subst ctx. by rewrite base_point.
  - intros Hnone. unfold makePoint. cbn [storeResult].
    subst ctx. rewrite base_point. by apply store_fold_proto.
Qed.





(** ** Further properties of the earlier [generateDataset] *)



(** With a count of zero the step is a division by zero, and the only
    sample is NaN whatever the bounds. *)
Lemma currentX_zero_count lo range :
  currentX lo (div range (ofZ 0)) 0 = NaN.
Proof.
  unfold currentX.
  assert (mul (ofZ 0) (div range (ofZ 0)) = NaN) as ->.
  { destruct range as [s|s| |s m e]; try done; by destruct s. }
  by destruct lo.
Qed.

(** X17. The earlier [generateDataset] uses the count as it comes. A
    negative count sets an empty dataset without running the formula. A
    count of zero runs the formula once, with the primary variable bound
    to NaN: the step is a division by zero. *)
Theorem generateDataset_nonpositive_count sch pv vs variables count h :
  SimulationSchema.independentVariables sch = Some (pv :: vs) →
  (count < 0 → generateDataset (Some sch) variables count h = (Some [], h))
  ∧ (count = 0 →
     generateDataset (Some sch) variables count h
     = let ctx := contextVars variables pv NaN in
       let call := callFunction (SimulationSchema.jsFormula sch) ctx h in
       (Some match call.1 with
             | Normal r =>
                 match storeResultLegacy (SimulationSchema.outputs sch) r ctx
                 with
                 | Normal point => [point]
                 | Throw => []
                 end
             | Throw => []
             end,
        call.2)).
Proof.
  intros Hvars. unfold generateDataset. rewrite Hvars. split.
  - intros Hcount. by rewrite seqZ_nil by lia.
  - intros ->. change (seqZ 0 (0 + 1)) with [0].
    rewrite generateDatasetLoop_cons. cbn zeta.
    unfold stepSize. rewrite currentX_zero_count, base_point.
    cbn [generateDatasetLoop fst snd].
    destruct (callFunction _ _ _).1 as [r|]; [|done].
    by destruct (storeResultLegacy _ _ _).
Qed.

(** ** From a failed analysis to the chart *)

(** X18. When the request for a schema fails in any way (no API key, a
    rejected request, an empty answer, a text that does not parse) and the
    problem text is not blank, [handleAnalyze] leaves the component with
    the failure's message as [errorMsg], the error schema as schema and
    the binding it had;
    with a runtime that runs "return 0;" to 0, what is then drawn is a flat
    line: one point per sample, each holding y = 0, and no marker. *)
Theorem failed_analysis_shows_flat_line
    (generateContent : string → string → Outcome (option string))
    (JSONparse : string → Outcome ParsedResponse.t)
    apiKey (st : Simulator.t) message h :
  trim (Simulator.problemText st) ≠ "" →
  requestSchema generateContent JSONparse apiKey (Simulator.problemText st)
  = Raised message →
  (∀ ctx h', (callFunction "return 0;" ctx h').1
             = Normal (VPrim (PNumber (ofZ 0)))) →
  let st' :=
    handleAnalyze st
      (Returned (analyzeProblemForSimulation generateContent JSONparse apiKey
                   (Simulator.problemText st))) in
  let drawn :=
    (UniversalSimulator (Simulator.schema st') (Simulator.variables st')
       (Simulator.dataCount st') (Simulator.hiddenLines st') h).1 in
  Simulator.errorMsg st'
  = Some (match message with
          | EmptyString => "No se pudo interpretar el problema."
          | m => m
          end)
  ∧ Simulator.schema st' = Some (errorSchema message)
  ∧ Simulator.variables st' = Simulator.variables st
  ∧ Simulator.isAnalyzing st' = false
  ∧ length drawn.1 = Z.to_nat (safeDataCount (Simulator.dataCount st) + 1)
  ∧ Forall (λ p : DataPoint, p !! "y" = Some (ofZ 0)) drawn.1
  ∧ drawn.2 = [].
Proof.
  intros Htext Hfail Hzero st' drawn. subst drawn st'.
  unfold analyzeProblemForSimulation, handleAnalyze. rewrite Hfail.
  destruct (trim (Simulator.problemText st)) as [|c rest]; [done|].
  rewrite decide_True by done.
  cbn [Simulator.errorMsg Simulator.isAnalyzing Simulator.schema
       Simulator.variables Simulator.dataCount Simulator.hiddenLines].
  split; [done|]. split; [done|]. split; [done|]. split; [done|].
  unfold UniversalSimulator, dataGenerationEngine.
  cbn [errorSchema SimulationSchema.independentVariables
       SimulationSchema.outputs SimulationSchema.jsFormula
       default from_option id].
  set (pv := VariableDef.mk "x" "x" _ _ _ _ _).
  set (outs := [OutputVariable.mk "Error" "y" None None None]).
  assert (neverThrows "return 0;") as Hnever.
  { intros ctx h'. eexists. apply Hzero. }
  pose proof (sampleLoop_length_neverThrows "return 0;"
                (Simulator.variables st) pv outs (minVal pv)
                (stepSize pv (safeDataCount (Simulator.dataCount st)))
                (seqZ 0 (safeDataCount (Simulator.dataCount st) + 1)) h
                Hnever) as Hlen.
  pose proof (sampleLoop_constant_number "return 0;"
                (Simulator.variables st) pv outs (minVal pv)
                (stepSize pv (safeDataCount (Simulator.dataCount st)))
                (seqZ 0 (safeDataCount (Simulator.dataCount st) + 1)) h
                (ofZ 0) Hzero ltac:(vm_compute; discriminate)) as Hflat.
  destruct (sampleLoop _ _ _ _ _ _ _ _) as [data h'].
  cbn [fst snd generatedData outputs primaryAxisVar] in *.
  split; [by rewrite Hlen, length_seqZ|]. split; [exact Hflat|].
  unfold intersections. rewrite decide_True; [done|]. right. cbn. lia.
Qed.

(** ** The two versions, the guards, and the empty variable list *)

(** X20. For a positive count and a schema with an output list, the
    earlier [generateDataset] sets exactly the dataset that the memoized
    engine computes, and leaves the host in the same state. *)
Theorem generateDataset_agrees_with_memoized_engine
    sch outs pv vs variables count h :
  0 < count →
  SimulationSchema.outputs sch = Some outs →
  SimulationSchema.independentVariables sch = Some (pv :: vs) →
  (generateDataset (Some sch) variables count h).1
  = Some (generatedData
            (dataGenerationEngine (Some sch) variables count h).1)
  ∧ (generateDataset (Some sch) variables count h).2
    = (dataGenerationEngine (Some sch) variables count h).2.
Proof.
  intros Hcount Houts Hvars.
  by rewrite (generateDataset_dataGenerationEngine sch outs pv vs).
Qed.

(** X21. What the two tests of a segment do cover: a NaN reading (a
    missing column included) at either point, and a reading that is not
    finite at the first point, on either line, leave the segment without a
    marker. *)
Theorem segment_guards_cover ps lineA lineB p1 p2 :
  isNaN (NumberAt p1 (OutputVariable.symbol lineA)) = true
  ∨ isNaN (NumberAt p1 (OutputVariable.symbol lineB)) = true
  ∨ isNaN (NumberAt p2 (OutputVariable.symbol lineA)) = true
  ∨ isNaN (NumberAt p2 (OutputVariable.symbol lineB)) = true
  ∨ isFinite (NumberAt p1 (OutputVariable.symbol lineA)) = false
  ∨ isFinite (NumberAt p1 (OutputVariable.symbol lineB)) = false →
  crossing ps lineA lineB p1 p2 = [].
Proof.
  intros [H|[H|[H|[H|H]]]].
  - apply crossing_NaN_skipped. by left.
  - apply crossing_NaN_skipped. right. by left.
  - apply crossing_NaN_skipped. right. right. by left.
  - apply crossing_NaN_skipped. right. right. by right.
  - by apply crossing_first_point_not_finite.
Qed.

(** X22. The defaults replace a missing list of variables but keep an
    empty one: for an answer whose list of variables is empty the schema
    has no variable, and the component then has no data and no marker to
    draw, and runs no formula. *)
Theorem empty_variable_list_is_kept parsed variables dataCount hiddenLines h :
  ParsedResponse.independentVariables parsed = Some [] →
  SimulationSchema.independentVariables (validationAndDefaults parsed)
  = Some []
  ∧ UniversalSimulator (Some (validationAndDefaults parsed)) variables
      dataCount hiddenLines h
    = ([], [], h).
Proof.
  intros Hempty.
  unfold UniversalSimulator, dataGenerationEngine, validationAndDefaults.
  cbn [SimulationSchema.independentVariables]. by rewrite Hempty.
Qed.

End Engine.


(** ** The claims at concrete inputs *)

(** C4. The guard of the intersection pass tests [isNaN] only. With the
    default range [-10, 10] and the default resolution 100, the formula
    [{A: 1/x, B: 0}] gives A = -5 at x = -0.2 and A = Infinity at x = 0:
    that segment has a reading that is not finite, it is not skipped, and
    the pass pushes a marker for it, whose y is NaN. *)
Theorem C4_infinite_reading_not_skipped :
  let g := (dataGenerationEngine Examples.run Examples.stringToNumber
              (Some Examples.reciprocal) (Examples.binding 0) 100 0).1 in
  map (readings "x" (Examples.output "A") (Examples.output "B"))
      (take 2 (drop 49 (generatedData g)))
  = [ (decimal (-2) 1, ofZ (-5), ofZ 0); (ofZ 0, Infinity, ofZ 0) ]
  ∧ isFinite Infinity = false
  ∧ isNaN Infinity = false
  ∧ intersections (generatedData g) (outputs g) ∅ (primaryAxisVar g)
    = [ Intersection.mk (decimal (-2) 1) NaN "Cruce" "#EF4444" ].
Proof. vm_compute. done. Qed.

(** Over [0, 10] with resolution 10 the eleven samples are 0, 1, ..., 10. *)
Lemma unit_grid_strictly_increasing :
  let g := (dataGenerationEngine Examples.run Examples.stringToNumber
              (Some Examples.lines) (Examples.binding 0) 10 0).1 in
  primaryValues "x" (generatedData g) = map ofZ (seqZ 0 11)
  ∧ strictlyIncreasing (primaryValues "x" (generatedData g)) = true.
Proof. vm_compute. done. Qed.

(** C2, as stated, fails: over [0, 1] with resolution 500 the step is 0.002,
    all 501 samples are emitted, and the first three all carry x = 0 after
    the rounding to 2 decimals. *)
Lemma C2_counterexample_equal_primary_values :
  let g := (dataGenerationEngine Examples.run Examples.stringToNumber
              (Some Examples.zero) (Examples.binding 0) 500 0).1 in
  0 < 500
  ∧ length (generatedData g) = 501%nat
  ∧ take 3 (primaryValues "x" (generatedData g)) = [ofZ 0; ofZ 0; ofZ 0]
  ∧ strictlyIncreasing (primaryValues "x" (generatedData g)) = false.
Proof. vm_compute. done. Qed.

(** C5, as stated, fails: the body [2*x] has no "return", and ingestion
    turns it into ["return 2*x"], not into ["return 0;"]; the sampled
    points then hold 2x, not 0. *)
Lemma C5_counterexample_body_without_return :
  let sch := validationAndDefaults Examples.parsedDouble in
  let g := (dataGenerationEngine Examples.run Examples.stringToNumber
              (Some sch) (Examples.binding 0) 10 0).1 in
  includes "2*x" "return" = false
  ∧ SimulationSchema.jsFormula sch = "return 2*x"
  ∧ SimulationSchema.jsFormula sch ≠ "return 0;"
  ∧ map (λ p : DataPoint, p !! "y") (generatedData g)
    = map (λ i, Some (ofZ (2 * i))) (seqZ 0 11).
Proof. vm_compute. done. Qed.

(** C7, as stated, fails twice. With the same schema, binding and
    resolution, hiding line A changes the intersection list. And a formula
    that reads the clock gives a different dataset on the second of two
    successive runs. *)
Lemma C7_counterexample_hidden_lines_and_clock :
  (UniversalSimulator Examples.run Examples.stringToNumber
     (Some Examples.lines) (Examples.binding 0) 10 ∅ 0).1.2
  ≠ (UniversalSimulator Examples.run Examples.stringToNumber
       (Some Examples.lines) (Examples.binding 0) 10 {["A"]} 0).1.2
  ∧ (let first := UniversalSimulator Examples.run Examples.stringToNumber
                    (Some Examples.clock) (Examples.binding 0) 20 ∅ 0 in
     let second := UniversalSimulator Examples.run Examples.stringToNumber
                     (Some Examples.clock) (Examples.binding 0) 20 ∅
                     first.2 in
     first.1.1 ≠ second.1.1).
Proof.
  split.
  - vm_compute. discriminate.
  - intros first second Heq.
    assert (map (λ p : DataPoint, p !! "y") first.1.1
            = map (λ p : DataPoint, p !! "y") second.1.1) as Hy
      by (by rewrite Heq).
    vm_compute in Hy. discriminate.
Qed.

(** C10, as stated, fails: one output is declared, its symbol is the empty
    string, and the single number is stored under 'y', not under that
    symbol. *)
Lemma C10_counterexample_empty_first_symbol :
  let g := (dataGenerationEngine Examples.run Examples.stringToNumber
              (Some Examples.unnamedOutput) (Examples.binding 0) 10 0).1 in
  OutputVariable.symbol <$> head (outputs g) = Some ""
  ∧ map (λ p : DataPoint, (p !! "", p !! "y")) (generatedData g)
    = map (λ i, (None, Some (ofZ (2 * i)))) (seqZ 0 11).
Proof. vm_compute. done. Qed.

(** ** The theorems at work on the example schemas *)

Lemma run_lines ctx h x :
  ctx !! "x" = Some x →
  (Examples.run "return { A: 2*x, B: -2*x+10 };" ctx h).1
  = Normal (Examples.linesResult x).
Proof. intros Hx. unfold Examples.run. cbn. by rewrite Hx. Defined.

Lemma run_unknown_text_throws ctx h :
  (Examples.run "return k * x;" ctx h).1 = Throw.
Proof. reflexivity. Defined.

Lemma C1_witness :
  (UniversalSimulator Examples.run Examples.stringToNumber
     (Some Examples.lines) (Examples.binding 0) 10 ∅ 0).1.2
  = [ Intersection.mk (decimal 25 1) (ofZ 5) "Cruce" "#EF4444" ].
Proof.
  apply (C1_two_lines_cross_once Examples.run Examples.stringToNumber
           Examples.lines (Examples.variable "x" 0 10) []
           (Examples.output "A") (Examples.output "B"));
    try reflexivity.
  - intros ctx h' x. apply run_lines.
  - apply not_elem_of_empty.
  - apply not_elem_of_empty.
Defined.

Lemma C2_witness :
  0 < 10
  ∧ Z.of_nat
      (length
         (generatedData
            (dataGenerationEngine Examples.run Examples.stringToNumber
               (Some Examples.lines) (Examples.binding 0) 10 0).1))
    ≤ 10 + 1.
Proof.
  assert (0 < 10) as Hcount by lia.
  split; [exact Hcount|].
  exact (proj1 (C2_at_most_N_plus_1_points_in_index_order Examples.run
                  Examples.stringToNumber (Some Examples.lines)
                  (Examples.binding 0) 10 0 Hcount)).
Defined.

Lemma C3_witness :
  (UniversalSimulator Examples.run Examples.stringToNumber
     (Some Examples.undefinedSymbol) (Examples.binding 0) 100 ∅ 0).1
  = ([], [])
  ∧ (sampleLoop Scenarios.run Examples.stringToNumber
       "return x < 2 ? x : null.x;" (Examples.binding 0)
       (Examples.variable "x" 0 3) [Examples.output "y"] (ofZ 0) (ofZ 1)
       ([0; 1] ++ 2 :: [3]) 0).1
    = [ {[ "x" := ofZ 0; "y" := ofZ 0 ]}; {[ "x" := ofZ 1; "y" := ofZ 1 ]} ]
      ++ []
  ∧ (sampleLoop Scenarios.run Examples.stringToNumber
       "return x < 2 ? x : null.x;" (Examples.binding 0)
       (Examples.variable "x" 0 3) [Examples.output "y"] (ofZ 0) (ofZ 1)
       ([0] ++ 1 :: [2; 3]) 0).1
    = [ {[ "x" := ofZ 0; "y" := ofZ 0 ]} ]
      ++ {[ "x" := ofZ 1; "y" := ofZ 1 ]} :: [].
Proof.
  pose proof (C3_evaluation_failures_absorbed Examples.run
                Examples.stringToNumber (Some Examples.undefinedSymbol)
                (Examples.binding 0) 100 ∅ 0) as [Hall _].
  pose proof (C3_evaluation_failures_absorbed Scenarios.run
                Examples.stringToNumber (Some Scenarios.partial)
                (Examples.binding 0) 3 ∅ 0) as (_ & Hthrow & Hreturn & _).
  split; [|split].
  - apply Hall. intros sch [= <-] ctx h. apply run_unknown_text_throws.
  - exact (Hthrow "return x < 2 ? x : null.x;" (Examples.variable "x" 0 3)
             [Examples.output "y"] (ofZ 0) (ofZ 1) [0; 1] 2 [3] eq_refl).
  - exact (Hreturn "return x < 2 ? x : null.x;" (Examples.variable "x" 0 3)
             [Examples.output "y"] (ofZ 0) (ofZ 1) [0] 1 [2; 3]
             (VPrim (PNumber (ofZ 1))) eq_refl).
Defined.

Lemma C5_witness :
  SimulationSchema.jsFormula (validationAndDefaults Examples.parsedNoFormula)
  = "return 0;"
  ∧ SimulationSchema.jsFormula (validationAndDefaults Examples.parsedDouble)
    = "return 2*x".
Proof.
  split.
  - destruct (C5_formula_body_defaults Examples.run Examples.stringToNumber
                Examples.parsedNoFormula) as [Hmissing _].
    apply Hmissing. by left.
  - destruct (C5_formula_body_defaults Examples.run Examples.stringToNumber
                Examples.parsedDouble) as (_ & Hprefixed & _).
    by apply Hprefixed.
Defined.

Lemma C6_witness :
  (length (activeOutputs [Examples.output "A"; Examples.output "B"] {["A"]})
   < 2)%nat
  ∧ intersections
      (generatedData
         (dataGenerationEngine Examples.run Examples.stringToNumber
            (Some Examples.lines) (Examples.binding 0) 10 0).1)
      [Examples.output "A"; Examples.output "B"] {["A"]}
      (Some (Examples.variable "x" 0 10))
    = [].
Proof.
  assert (length (activeOutputs [Examples.output "A"; Examples.output "B"]
                    {["A"]}) < 2)%nat as Hvisible
    by (vm_compute; lia).
  split; [exact Hvisible|].
  by apply C6_fewer_than_two_visible_outputs.
Defined.

Lemma C7_witness :
  (UniversalSimulator Examples.run Examples.stringToNumber
     (Some Examples.lines) (Examples.binding 0) 10 ∅ 0).1
  = (UniversalSimulator Examples.run Examples.stringToNumber
       (Some Examples.lines) (Examples.binding 0) 10 ∅ 1000).1.
Proof.
  apply C7_deterministic_for_pure_formula.
  intros sch [= <-] ctx h1 h2.
  unfold Examples.lines, Examples.schema, SimulationSchema.jsFormula.
  unfold Examples.run. by destruct (ctx !! "x").
Defined.

Lemma C8_witness :
  UniversalSimulator Examples.run Examples.stringToNumber
    (Some Examples.noVariables) (Examples.binding 0) 100 ∅ 0
  = ([], [], 0).
Proof.
  apply C8_no_independent_variables. by right.
Defined.

Lemma C9_witness :
  (sampleLoop Examples.run Examples.stringToNumber "return 'n/a';"
     (Examples.binding 7) (Examples.variable "x" 0 10) [Examples.output "y"]
     (ofZ 0) (ofZ 1) [3] 0).1
  = [ contextVars (Examples.binding 7) (Examples.variable "x" 0 10) (ofZ 3) ].
Proof.
  apply (C9_non_numeric_result_keeps_bare_point Examples.run
           Examples.stringToNumber Examples.notAvailable (Examples.binding 7)
           (Examples.variable "x" 0 10) [Examples.output "y"] (ofZ 0) (ofZ 1)
           3 [] 0 (PString "n/a")).
  - reflexivity.
  - discriminate.
Defined.

Lemma C10_witness :
  (∃ key,
     (sampleLoop Examples.run Examples.stringToNumber "return 0;"
        (Examples.binding 7) (Examples.variable "x" 0 10)
        [Examples.output "A"] (ofZ 0) (ofZ 1) [3] 0).1
     = [ <[key := ofZ 0]>
           (contextVars (Examples.binding 7) (Examples.variable "x" 0 10)
                        (ofZ 3)) ]
     ∧ key = "A")
  ∧ (sampleLoop Examples.run Examples.stringToNumber "return 0;"
       (Examples.binding 7) (Examples.variable "x" 0 10)
       [Examples.output "__proto__"] (ofZ 0) (ofZ 1) [3] 0).1
    = [ contextVars (Examples.binding 7) (Examples.variable "x" 0 10)
                    (ofZ 3) ].
Proof.
  split.
  - destruct (C10_single_number_key Examples.run Examples.stringToNumber
                Examples.zero (Examples.binding 7)
                (Examples.variable "x" 0 10) [Examples.output "A"]
                (ofZ 0) (ofZ 1) 3 [] 0 (ofZ 0) eq_refl)
      as (key & point & Hpoint & _ & _ & Hkey & _ & Hstored & _).
    assert (key = "A") as HA
      by (apply (Hkey (Examples.output "A") []); [reflexivity|discriminate]).
    exists key. split; [|exact HA].
    transitivity [point]; [exact Hpoint|].
    f_equal. apply Hstored. left. rewrite HA. discriminate.
  - destruct (C10_single_number_key Examples.run Examples.stringToNumber
                Examples.zero (Examples.binding 7)
                (Examples.variable "x" 0 10) [Examples.output "__proto__"]
                (ofZ 0) (ofZ 1) 3 [] 0 (ofZ 0) eq_refl)
      as (key & point & Hpoint & _ & _ & Hkey & _ & _ & Hignored).
    assert (key = "__proto__") as HP
      by (apply (Hkey (Examples.output "__proto__") []);
          [reflexivity|discriminate]).
    transitivity [point]; [exact Hpoint|].
    f_equal. apply Hignored; [exact HP|]. rewrite HP. reflexivity.
Defined.

(** ** Properties of the text helpers *)

Lemma append_cons c (s t : string) : String c s +:+ t = String c (s +:+ t).
Proof. done. Qed.

Lemma append_nil (t : string) : "" +:+ t = t.
Proof. done. Qed.

Lemma length_append (s t : string) :
  String.length (s +:+ t) = (String.length s + String.length t)%nat.
Proof.
  induction s as [|c s IH]; [done|].
  rewrite append_cons. cbn [String.length]. by rewrite IH.
Qed.

Lemma append_assoc (a b c : string) : (a +:+ b) +:+ c = a +:+ b +:+ c.
Proof.
  induction a as [|x a IH]; [done|]. rewrite !append_cons. by f_equal.
Qed.

Lemma trimStart_noLeadingWhiteSpace s : noLeadingWhiteSpace (trimStart s).
Proof.
  induction s as [|c s IH]; cbn; [done|].
  by destruct (isWhiteSpace c) eqn:Hc.
Qed.

Lemma trimStart_id s : noLeadingWhiteSpace s → trimStart s = s.
Proof. destruct s as [|c s]; cbn; [done|]. by intros ->. Qed.

Lemma trimEnd_noLeadingWhiteSpace s :
  noLeadingWhiteSpace s → noLeadingWhiteSpace (trimEnd s).
Proof.
  destruct s as [|c s]; cbn; [done|]. intros Hc.
  destruct (trimEnd s); cbn; [by rewrite Hc|done].
Qed.

Lemma trimEnd_idempotent s : trimEnd (trimEnd s) = trimEnd s.
Proof.
  induction s as [|c s IH]; cbn; [done|].
  destruct (trimEnd s) as [|d kept] eqn:Hkept.
  - destruct (isWhiteSpace c) eqn:Hc; cbn; [done|]. by rewrite Hc.
  - cbn [trimEnd] in *. by rewrite IH.
Qed.

Lemma trim_idempotent s : trim (trim s) = trim s.
Proof.
  unfold trim. rewrite (trimStart_id (trimEnd (trimStart s))).
  - apply trimEnd_idempotent.
  - apply trimEnd_noLeadingWhiteSpace, trimStart_noLeadingWhiteSpace.
Qed.

Lemma trimStart_blank_append pre s :
  blank pre → trimStart (pre +:+ s) = trimStart s.
Proof.
  unfold blank. induction pre as [|c pre IH]; [done|].
  rewrite append_cons. cbn [trimStart].
  destruct (isWhiteSpace c); [exact IH|done].
Qed.

Lemma trimEnd_blank post : blank post → trimEnd post = "".
Proof.
  unfold blank. induction post as [|c post IH]; cbn; [done|].
  destruct (isWhiteSpace c); [|done]. intros Hpost. by rewrite IH.
Qed.

Lemma trimEnd_append_blank s post :
  blank post → trimEnd (s +:+ post) = trimEnd s.
Proof.
  intros Hpost. induction s as [|c s IH].
  - by apply trimEnd_blank.
  - rewrite append_cons. cbn [trimEnd]. by rewrite IH.
Qed.

Lemma trimEnd_append_kept s t :
  trimEnd t = t → t ≠ "" → trimEnd (s +:+ t) = s +:+ t.
Proof.
  intros Ht Hne. induction s as [|c s IH]; [done|].
  rewrite append_cons. cbn [trimEnd]. rewrite IH.
  destruct (s +:+ t) eqn:Hst; [|done].
  destruct s; [by rewrite append_nil in Hst|by rewrite append_cons in Hst].
Qed.

Lemma trimStart_append_kept s post :
  noLeadingWhiteSpace s → s ≠ "" → trimStart (s +:+ post) = s +:+ post.
Proof.
  destruct s as [|c s]; [done|]. rewrite append_cons. cbn. by intros ->.
Qed.

(** White space around a text that begins and ends with visible
    characters is what [trim] removes. *)
Lemma trim_surrounded pre post s t :
  blank pre → blank post →
  noLeadingWhiteSpace s → s ≠ "" → trimEnd t = t → t ≠ "" →
  trim (pre +:+ (s +:+ t) +:+ post) = s +:+ t.
Proof.
  intros Hpre Hpost Hs Hne Ht Htne. unfold trim.
  rewrite trimStart_blank_append by done.
  rewrite trimStart_append_kept.
  - rewrite trimEnd_append_blank by done. by apply trimEnd_append_kept.
  - destruct s as [|c s]; [done|by rewrite append_cons].
  - destruct s; [done|by rewrite append_cons].
Qed.

Lemma endsWith_refl s : endsWith s s = true.
Proof. destruct s; cbn [endsWith]; by rewrite String.eqb_refl. Qed.

Lemma endsWith_append s t : endsWith (s +:+ t) t = true.
Proof.
  induction s as [|c s IH]; [apply endsWith_refl|].
  rewrite append_cons. cbn [endsWith]. rewrite IH.
  by destruct (String.eqb _ _).
Qed.

Lemma substringTo_append s t :
  substringTo (String.length (s +:+ t) - String.length t) (s +:+ t) = s.
Proof.
  induction s as [|c s IH].
  - rewrite append_nil, Nat.sub_diag. by destruct t.
  - rewrite append_cons. cbn [String.length].
    pose proof (length_append s t) as Hlen.
    replace (S (String.length (s +:+ t)) - String.length t)%nat
      with (S (String.length (s +:+ t) - String.length t)) by lia.
    cbn [substringTo]. by rewrite IH.
Qed.

Lemma startsWith_append s p q :
  startsWith s (p +:+ q) = true → startsWith s p = true.
Proof.
  unfold startsWith. revert s.
  induction p as [|a p IH]; intros s; [by destruct s|].
  rewrite append_cons. destruct s as [|b s]; cbn [String.prefix]; [done|].
  destruct (Ascii.ascii_dec a b); [apply IH|done].
Qed.

Lemma startsWith_append_cancel p s q :
  startsWith (p +:+ s) (p +:+ q) = startsWith s q.
Proof.
  unfold startsWith. induction p as [|a p IH]; [done|].
  rewrite !append_cons. cbn [String.prefix].
  destruct (Ascii.ascii_dec a a); [exact IH|done].
Qed.

Lemma startsWith_empty s : startsWith s "" = true.
Proof. by destruct s. Qed.

Lemma startsWith_append_same p s : startsWith (p +:+ s) p = true.
Proof.
  unfold startsWith. induction p as [|a p IH]; [by destruct s|].
  rewrite append_cons. cbn [String.prefix].
  destruct (Ascii.ascii_dec a a); [exact IH|done].
Qed.

Lemma startsWith_fence_json s :
  startsWith s "```json" = true → startsWith s "```" = true.
Proof. apply (startsWith_append s "```" "json"). Qed.

(** X1. A fenced answer is unwrapped: for a text made of white space, an
    opening fence [```json] or [```], a body, a closing fence [```] and
    white space, [cleanJsonText] returns the body, trimmed. After the plain
    fence the body must not begin with "json", which would make the opening
    fence the longer one. *)
Theorem cleanJsonText_unwraps_fence pre post body :
  blank pre → blank post →
  cleanJsonText (pre +:+ ("```json" +:+ body +:+ "```") +:+ post) = trim body
  ∧ (startsWith (body +:+ "```") "json" = false →
     cleanJsonText (pre +:+ ("```" +:+ body +:+ "```") +:+ post) = trim body).
Proof.
  intros Hpre Hpost. split.
  - unfold cleanJsonText. cbv zeta.
    rewrite <- (append_assoc "```json" body "```").
    rewrite (trim_surrounded pre post ("```json" +:+ body) "```") by done.
    rewrite (append_assoc "```json" body "```").
    rewrite startsWith_append_same.
    change (substringFrom 7 ("```json" +:+ body +:+ "```"))
      with (body +:+ "```").
    rewrite endsWith_append.
    change 3%nat with (String.length "```") at 1.
    by rewrite substringTo_append.
  - intros Hjson. unfold cleanJsonText. cbv zeta.
    rewrite <- (append_assoc "```" body "```").
    rewrite (trim_surrounded pre post ("```" +:+ body) "```") by done.
    rewrite (append_assoc "```" body "```").
    change "```json" with ("```" +:+ "json").
    rewrite startsWith_append_cancel, Hjson.
    rewrite startsWith_append_same.
    change (substringFrom 3 ("```" +:+ body +:+ "```"))
      with (body +:+ "```").
    rewrite endsWith_append.
    change 3%nat with (String.length "```") at 1.
    by rewrite substringTo_append.
Qed.

(** X2. A text without fences is only trimmed, and whatever the text,
    the result has no white space left at either end. *)
Theorem cleanJsonText_trims text :
  (startsWith (trim text) "```" = false →
   endsWith (trim text) "```" = false →
   cleanJsonText text = trim text)
  ∧ trim (cleanJsonText text) = cleanJsonText text.
Proof.
  split.
  - intros Hstart Hend. unfold cleanJsonText. cbv zeta.
    destruct (startsWith (trim text) "```json") eqn:Hjson.
    { apply startsWith_fence_json in Hjson. congruence. }
    rewrite Hstart, Hend. apply trim_idempotent.
  - unfold cleanJsonText. apply trim_idempotent.
Qed.

(** ** Properties of the handlers *)

(** X3. Toggling a line flips its visibility and no other; toggling it
    twice gives back the set of hidden lines. *)
Theorem toggleLineVisibility_flips_one (hiddenLines : gset string) symbol :
  toggleLineVisibility (toggleLineVisibility hiddenLines symbol) symbol
  = hiddenLines
  ∧ (symbol ∈ toggleLineVisibility hiddenLines symbol ↔ symbol ∉ hiddenLines)
  ∧ (∀ other, other ≠ symbol →
       other ∈ toggleLineVisibility hiddenLines symbol ↔ other ∈ hiddenLines).
Proof.
  unfold toggleLineVisibility.
  destruct (decide (symbol ∈ hiddenLines)) as [Hin|Hout].
  - rewrite decide_False
      by (rewrite elem_of_difference, elem_of_singleton; tauto).
    split; [|split].
    + apply set_eq. intros x.
      rewrite elem_of_union, elem_of_difference, elem_of_singleton.
      destruct (decide (x = symbol)) as [->|]; tauto.
    + rewrite elem_of_difference, elem_of_singleton. tauto.
    + intros other Hother.
      rewrite elem_of_difference, elem_of_singleton. tauto.
  - rewrite decide_True
      by (rewrite elem_of_union, elem_of_singleton; tauto).
    split; [|split].
    + apply set_eq. intros x.
      rewrite elem_of_difference, elem_of_union, elem_of_singleton.
      destruct (decide (x = symbol)) as [->|]; tauto.
    + rewrite elem_of_union, elem_of_singleton. tauto.
    + intros other Hother.
      rewrite elem_of_union, elem_of_singleton. tauto.
Qed.

Lemma initialVars_step_other (vars : list VariableDef.t)
    (acc : gmap string number) k :
  (∀ w, w ∈ vars → VariableDef.symbol w ≠ k) →
  foldl (λ vars v,
           if decide (VariableDef.symbol v = "") then vars
           else OrdinarySet vars (VariableDef.symbol v) (VariableDef.default v))
        acc vars !! k
  = acc !! k.
Proof.
  revert acc. induction vars as [|v vars IH]; intros acc Hk; [done|].
  cbn [foldl]. rewrite IH by (intros w Hw; apply Hk; by right).
  case_decide; [done|]. rewrite OrdinarySet_lookup_ne; [done|].
  intros ->. by apply (Hk v); [left|].
Qed.

Lemma initialVars_step_bound (vars : list VariableDef.t)
    (acc : gmap string number) k :
  is_Some
    (foldl (λ vars v,
              if decide (VariableDef.symbol v = "") then vars
              else OrdinarySet vars (VariableDef.symbol v)
                     (VariableDef.default v))
           acc vars !! k)
  ↔ is_Some (acc !! k)
    ∨ (k ≠ "" ∧ k ≠ "__proto__"
       ∧ ∃ v, v ∈ vars ∧ VariableDef.symbol v = k).
Proof.
  revert acc. induction vars as [|v vars IH]; intros acc.
  - cbn. split; [by left|]. intros [?|(_ & _ & v & Hv & _)]; [done|].
    by apply elem_of_nil in Hv.
  - cbn [foldl]. rewrite IH. case_decide as Hsym.
    + split.
      * intros [?|(Hk & Hp & w & Hw & Hsw)]; [by left|].
        right. split; [done|]. split; [done|].
        exists w. split; [by right|done].
      * intros [?|(Hk & Hp & w & Hw & Hsw)]; [by left|].
        apply elem_of_cons in Hw as [->|Hw]; [congruence|].
        right. split; [done|]. split; [done|]. by exists w.
    + rewrite OrdinarySet_is_Some. split.
      * intros [[Hacc|[-> Hp]]|(Hk & Hp & w & Hw & Hsw)].
        -- by left.
        -- right. split; [done|]. split; [done|].
           exists v. split; [by left|done].
        -- right. split; [done|]. split; [done|].
           exists w. split; [by right|done].
      * intros [Hacc|(Hk & Hp & w & Hw & Hsw)].
        -- left. by left.
        -- apply elem_of_cons in Hw as [->|Hw].
           ++ left. right. split; [done|]. by rewrite Hsw.
           ++ right. split; [done|]. split; [done|]. by exists w.
Qed.

(** X4. The binding built after an analysis has an entry exactly for the
    symbols of the declared variables that are neither empty nor
    [__proto__] (an assignment to that key of a plain object stores
    nothing), and a variable's entry is its default unless a later variable
    has the same symbol. *)
Theorem initialVars_binds_declared_symbols (vars : list VariableDef.t) :
  (∀ k, is_Some (initialVars (Some vars) !! k)
        ↔ k ≠ "" ∧ k ≠ "__proto__"
          ∧ ∃ v, v ∈ vars ∧ VariableDef.symbol v = k)
  ∧ (∀ before v after,
       vars = before ++ v :: after →
       VariableDef.symbol v ≠ "" →
       VariableDef.symbol v ≠ "__proto__" →
       (∀ w, w ∈ after → VariableDef.symbol w ≠ VariableDef.symbol v) →
       initialVars (Some vars) !! VariableDef.symbol v
       = Some (VariableDef.default v)).
Proof.
  unfold initialVars. cbn [default from_option id]. split.
  - intros k. rewrite initialVars_step_bound, lookup_empty.
    split; [intros [[? ?]|?]; done|by right].
  - intros before v after -> Hsym Hproto Hafter.
    rewrite foldl_app. cbn [foldl]. rewrite decide_False by done.
    rewrite initialVars_step_other by done.
    rewrite OrdinarySet_stored by (by left). apply lookup_insert_eq.
Qed.

(** ** Properties of the provider boundary *)

Lemma orElse_nonempty s fallback : fallback ≠ "" → orElse s fallback ≠ "".
Proof. by destruct s as [[|c rest]|]. Qed.

Lemma defaultJsFormula_nonempty body : defaultJsFormula body ≠ "".
Proof.
  unfold defaultJsFormula.
  destruct (includes (orElse body "return 0;") "return").
  - by apply orElse_nonempty.
  - done.
Qed.

Lemma defaultJsFormula_includes_return body :
  includes (defaultJsFormula body) "return" = true.
Proof.
  unfold defaultJsFormula.
  destruct (includes (orElse body "return 0;") "return") eqn:Hinc; done.
Qed.

Lemma defaultVariable_wellFormed v : wellFormedVariable (defaultVariable v).
Proof.
  unfold wellFormedVariable, defaultVariable. cbn.
  repeat split; try (by apply orElse_nonempty); by eexists.
Qed.

Lemma validationAndDefaults_wellFormed_schema parsed :
  wellFormedSchema (validationAndDefaults parsed).
Proof.
  eexists _, _. cbn. split; [done|]. split; [done|]. split.
  - apply Forall_forall. intros v Hv.
    apply list_elem_of_In, in_map_iff in Hv. destruct Hv as (w & <- & _).
    apply defaultVariable_wellFormed.
  - apply defaultJsFormula_includes_return.
Qed.

(** X5. Whatever the parsed response holds, the schema after the defaults
    has both lists, every variable has a non-empty name and symbol and
    numeric bounds, and the formula body contains "return" and is left
    unchanged by a second pass. A response without a variable list gets
    exactly one variable, [t] on [0, 20]; one without an output list gets
    exactly one output, whose symbol is not empty. *)
Theorem validationAndDefaults_wellFormed parsed :
  let sch := validationAndDefaults parsed in
  wellFormedSchema sch
  ∧ defaultJsFormula (Some (SimulationSchema.jsFormula sch))
    = SimulationSchema.jsFormula sch
  ∧ (ParsedResponse.independentVariables parsed = None →
     ∃ t, SimulationSchema.independentVariables sch = Some [t]
          ∧ VariableDef.symbol t = "t"
          ∧ VariableDef.min t = Some (ofZ 0)
          ∧ VariableDef.max t = Some (ofZ 20))
  ∧ (ParsedResponse.outputs parsed = None →
     ∃ o, SimulationSchema.outputs sch = Some [o]
          ∧ OutputVariable.symbol o ≠ "").
Proof.
  intros sch. subst sch. unfold validationAndDefaults.
  split; [|split; [|split]].
  - apply validationAndDefaults_wellFormed_schema.
  - cbn [SimulationSchema.jsFormula].
    pose proof (defaultJsFormula_nonempty (ParsedResponse.jsFormula parsed))
      as Hne.
    pose proof (defaultJsFormula_includes_return
                  (ParsedResponse.jsFormula parsed)) as Hinc.
    destruct (defaultJsFormula (ParsedResponse.jsFormula parsed))
      as [|c rest] eqn:Hbody; [done|].
    unfold defaultJsFormula at 1. cbn [orElse]. by rewrite Hinc.
  - intros ->. eexists. cbn. by repeat split.
  - intros Houts. unfold defaultOutputs. rewrite Houts.
    destruct (ParsedResponse.dependentVariable parsed) as [legacyDep|].
    + eexists. cbn. split; [done|]. by apply orElse_nonempty.
    + eexists. cbn. by split.
Qed.

Lemma errorSchema_wellFormed message : wellFormedSchema (errorSchema message).
Proof.
  eexists _, _. cbn. split; [done|]. split; [done|]. split; [|done].
  repeat constructor; cbn; by eauto.
Qed.

Section ServiceFacts.

Variable generateContent : string → string → Outcome (option string).
Variable JSONparse : string → Outcome ParsedResponse.t.
Variable generateExplanation :
  string → string → string → Outcome (option string).

(** X6. [analyzeProblemForSimulation] always returns a well-formed schema:
    a rejected request, an empty answer and a text that does not parse all
    end in the error schema, whose title [handleAnalyze] recognises.
    Without an API key the result is that schema with the message about
    the key, and does not depend on what the provider or the parser would
    have answered. *)
Theorem analyzeProblemForSimulation_total apiKey problemText :
  let sch :=
    analyzeProblemForSimulation generateContent JSONparse apiKey problemText in
  wellFormedSchema sch
  ∧ (∀ message,
       requestSchema generateContent JSONparse apiKey problemText
       = Raised message →
       SimulationSchema.title sch = errorTitle
       ∧ SimulationSchema.jsFormula sch = "return 0;")
  ∧ (apiKey = "" →
     ∀ otherContent otherParse,
       analyzeProblemForSimulation otherContent otherParse apiKey problemText
       = sch
       ∧ SimulationSchema.description sch
         = "Falta la API KEY. Por favor configura la variable de entorno API_KEY en Vercel.").
Proof.
  intros sch. subst sch. unfold analyzeProblemForSimulation.
  split; [|split].
  - unfold requestSchema. destruct (getAiClient apiKey) as [ai|m];
      [|apply errorSchema_wellFormed].
    destruct (generateContent ai problemText) as [[[|c rest]|]|m];
      try apply errorSchema_wellFormed.
    destruct (JSONparse _) as [parsed|m]; [|apply errorSchema_wellFormed].
    apply validationAndDefaults_wellFormed_schema.
  - by intros message ->.
  - by intros ->.
Qed.

(** X7. The tutor never shows an empty answer: [explainMathConcept]
    returns a non-empty text in every case, and submitting a question that
    is not blank stores it as the response and ends the loading state; a
    blank question changes nothing. *)
Theorem tutor_answer_never_empty apiKey context (st : Tutor.t) :
  let answer :=
    explainMathConcept generateExplanation apiKey context (Tutor.query st) in
  answer ≠ ""
  ∧ (trim (Tutor.query st) ≠ "" →
     Tutor.response (handleSubmit st answer) = answer
     ∧ Tutor.loading (handleSubmit st answer) = false)
  ∧ (trim (Tutor.query st) = "" → handleSubmit st answer = st).
Proof.
  intros answer. split; [|split].
  - subst answer. unfold explainMathConcept.
    destruct (getAiClient apiKey) as [ai|m]; [|done].
    destruct (generateExplanation ai context (Tutor.query st)) as [text|m];
      [|done].
    by apply orElse_nonempty.
  - intros Hquery. unfold handleSubmit.
    by destruct (trim (Tutor.query st)).
  - intros Hquery. unfold handleSubmit. by rewrite Hquery.
Qed.

End ServiceFacts.

(** ** From a successful analysis to the component state *)

Section AnalysisFacts.

Variable generateContent : string → string → Outcome (option string).
Variable JSONparse : string → Outcome ParsedResponse.t.

(** X19. When the request succeeds on a problem text that is not blank,
    [handleAnalyze] leaves the component with the returned schema, no
    longer analysing, and with every line visible again, whatever was
    hidden before. If the title of the schema is not the error title, no
    error is shown and the binding is built anew: it has an entry for the
    symbol of every variable of the schema, a symbol [__proto__] excepted,
    and for nothing else. If the title is the error title, which an answer
    of the provider may carry as well, the description is shown as the
    error and the binding stays what it was. *)
Theorem successful_analysis_resets_the_view apiKey (st : Simulator.t) sch :
  trim (Simulator.problemText st) ≠ "" →
  requestSchema generateContent JSONparse apiKey (Simulator.problemText st)
  = Returned sch →
  let st' :=
    handleAnalyze st
      (Returned (analyzeProblemForSimulation generateContent JSONparse apiKey
                   (Simulator.problemText st))) in
  Simulator.schema st' = Some sch
  ∧ Simulator.isAnalyzing st' = false
  ∧ (∀ outs, activeOutputs outs (Simulator.hiddenLines st') = outs)
  ∧ (SimulationSchema.title sch ≠ errorTitle →
     Simulator.errorMsg st' = None
     ∧ ∃ vars, SimulationSchema.independentVariables sch = Some vars
               ∧ ∀ k, is_Some (Simulator.variables st' !! k)
                      ↔ k ≠ "__proto__"
                        ∧ ∃ v, v ∈ vars ∧ VariableDef.symbol v = k)
  ∧ (SimulationSchema.title sch = errorTitle →
     Simulator.errorMsg st' = Some (SimulationSchema.description sch)
     ∧ Simulator.variables st' = Simulator.variables st).
Proof.
  intros Htext Hrequest st'. subst st'.
  unfold analyzeProblemForSimulation, handleAnalyze. rewrite Hrequest.
  destruct (trim (Simulator.problemText st)) as [|c rest]; [done|].
  assert (∀ (hidden : gset string) outs, hidden = ∅ →
            activeOutputs outs hidden = outs) as Hvisible.
  { intros hidden outs ->. unfold activeOutputs.
    induction outs as [|o outs IH]; [done|].
    rewrite filter_cons_True by apply not_elem_of_empty. by rewrite IH. }
  case_decide as Htitle;
    cbn [Simulator.errorMsg Simulator.isAnalyzing Simulator.schema
         Simulator.variables Simulator.hiddenLines];
    (split; [done|]); (split; [done|]);
    (split; [intros outs; by apply Hvisible|]).
  - split; [done|]. by intros _.
  - split; [|done]. intros _. split; [done|].
    assert (wellFormedSchema sch) as (vars & outs & Hvars & _ & Hwf & _).
    { unfold requestSchema in Hrequest.
      destruct (getAiClient apiKey) as [ai|]; [|done].
      destruct (generateContent ai _) as [[[|c' rest']|]|]; try done.
      destruct (JSONparse _) as [parsed|]; [|done].
      injection Hrequest as <-. apply validationAndDefaults_wellFormed_schema. }
    exists vars. split; [done|]. intros k. rewrite Hvars.
    unfold initialVars. cbn [default from_option id].
    rewrite initialVars_step_bound, lookup_empty. split.
    + intros [[? ?]|(_ & ? & ?)]; done.
    + intros (Hp & v & Hv & Hk). right. split; [|split; [done|by exists v]].
      rewrite <- Hk. by apply (proj1 (Forall_forall _ _) Hwf v Hv).
Qed.

End AnalysisFacts.

(** ** The further properties at work *)

Lemma blank_spaces : blank "  ".
Proof. reflexivity. Defined.

Lemma blank_lineFeed : blank Scenarios.lineFeed.
Proof. reflexivity. Defined.

Lemma cleanJsonText_unwraps_fence_witness :
  cleanJsonText
    ("  " +:+ ("```json" +:+ (Scenarios.lineFeed +:+ "{ a: 1 } ") +:+ "```")
          +:+ Scenarios.lineFeed)
  = "{ a: 1 }".
Proof.
  exact (proj1 (cleanJsonText_unwraps_fence "  " Scenarios.lineFeed
                  (Scenarios.lineFeed +:+ "{ a: 1 } ")
                  blank_spaces blank_lineFeed)).
Defined.

Lemma cleanJsonText_trims_witness :
  cleanJsonText "  { a: 1 } " = "{ a: 1 }".
Proof.
  exact (proj1 (cleanJsonText_trims "  { a: 1 } ") eq_refl eq_refl).
Defined.

Lemma initialVars_binds_declared_symbols_witness :
  initialVars
    (Some [ Examples.variable "x" 1 2; Examples.variable "__proto__" 3 4;
            Examples.variable "x" 5 6 ])
    !! "x"
  = Some (ofZ 5)
  ∧ ¬ is_Some
        (initialVars
           (Some [ Examples.variable "x" 1 2;
                   Examples.variable "__proto__" 3 4;
                   Examples.variable "x" 5 6 ])
           !! "__proto__").
Proof.
  destruct (initialVars_binds_declared_symbols
              [ Examples.variable "x" 1 2; Examples.variable "__proto__" 3 4;
                Examples.variable "x" 5 6 ])
    as [Hkeys Hlast].
  split.
  - apply (Hlast [Examples.variable "x" 1 2; Examples.variable "__proto__" 3 4]
             (Examples.variable "x" 5 6) []).
    + reflexivity.
    + discriminate.
    + discriminate.
    + intros w Hw. by apply elem_of_nil in Hw.
  - intros Hsome. apply Hkeys in Hsome as (_ & Hproto & _). by apply Hproto.
Defined.

Lemma validationAndDefaults_wellFormed_witness :
  ∃ o, SimulationSchema.outputs
         (validationAndDefaults
            (ParsedResponse.mk "" "" None None None None "" ""))
       = Some [o]
       ∧ OutputVariable.symbol o ≠ "".
Proof.
  destruct (validationAndDefaults_wellFormed
              (ParsedResponse.mk "" "" None None None None "" ""))
    as (_ & _ & _ & Houts).
  by apply Houts.
Defined.

Lemma analyzeProblemForSimulation_total_witness :
  SimulationSchema.title
    (analyzeProblemForSimulation Scenarios.rejecting Scenarios.parse
       "clave" "Un ciclista")
  = errorTitle
  ∧ SimulationSchema.jsFormula
      (analyzeProblemForSimulation Scenarios.rejecting Scenarios.parse
         "clave" "Un ciclista")
    = "return 0;".
Proof.
  destruct (analyzeProblemForSimulation_total Scenarios.rejecting
              Scenarios.parse "clave" "Un ciclista") as (_ & Hfail & _).
  by apply (Hfail "503 Service Unavailable").
Defined.

Lemma tutor_answer_never_empty_witness :
  Tutor.response
    (handleSubmit Scenarios.asking
       (explainMathConcept Scenarios.silent "clave" "Contexto"
          (Tutor.query Scenarios.asking)))
  ≠ "".
Proof.
  destruct (tutor_answer_never_empty Scenarios.silent "clave" "Contexto"
              Scenarios.asking) as (Hanswer & Hsubmit & _).
  destruct Hsubmit as [-> _]; [discriminate|exact Hanswer].
Defined.

Lemma hiding_B_subset : (∅ : gset string) ⊆ {[ "B" ]}.
Proof. intros x Hx. by apply not_elem_of_empty in Hx. Defined.

Lemma intersections_shrink_when_hiding_witness :
  intersections Scenarios.coincident
    [Examples.output "A"; Examples.output "B"; Examples.output "y"]
    {[ "B" ]} (Some (Examples.variable "x" 0 2))
  `sublist_of`
  intersections Scenarios.coincident
    [Examples.output "A"; Examples.output "B"; Examples.output "y"]
    ∅ (Some (Examples.variable "x" 0 2)).
Proof.
  exact (proj1 (intersections_shrink_when_hiding Scenarios.coincident
                  [Examples.output "A"; Examples.output "B";
                   Examples.output "y"]
                  ∅ {[ "B" ]} (Some (Examples.variable "x" 0 2))
                  hiding_B_subset)).
Defined.

Lemma coincident_lines_never_cross_witness :
  segmentLoop "x" (Examples.output "A") (Examples.output "B")
    Scenarios.coincident
  = [].
Proof.
  apply coincident_lines_never_cross.
  repeat constructor.
Defined.

Lemma missing_column_never_marks_witness :
  segmentLoop "x" (Examples.output "z") (Examples.output "y")
    Scenarios.coincident
  = []
  ∧ segmentLoop "x" (Examples.output "y") (Examples.output "z")
      Scenarios.coincident
    = [].
Proof.
  apply missing_column_never_marks.
  repeat constructor.
Defined.


Lemma points_hold_every_variable_witness :
  Forall (λ p : DataPoint,
            ∀ k, k = "x" ∨ is_Some (Examples.binding 3 !! k) →
                 is_Some (p !! k))
    (generatedData
       (dataGenerationEngine Examples.run Examples.stringToNumber
          (Some Examples.lines) (Examples.binding 3) 10 0).1).
Proof.
  exact (points_hold_every_variable Examples.run Examples.stringToNumber
           (Some Examples.lines) (Examples.binding 3) 10 0
           (Examples.variable "x" 0 10) eq_refl).
Defined.


Lemma proto_keys_NoDup :
  NoDup [ ("__proto__", PNumber (ofZ 5)); ("A", PNumber (ofZ 1)) ].*1.
Proof. cbn. by apply (bool_decide_unpack (NoDup ["__proto__"; "A"])). Defined.

Lemma mapping_result_fills_columns_witness :
  ∃ point,
    (sampleLoop Scenarios.run Examples.stringToNumber
       "return { ['__proto__']: 5, A: 1 };" (Examples.binding 7)
       (Examples.variable "x" 0 10) [Examples.output "B"] (ofZ 0) (ofZ 1)
       [3] 0).1
    = [point]
    ∧ point !! "A" = Some (ofZ 1)
    ∧ point !! "x" = Some (ofZ 3)
    ∧ point !! "__proto__" = None.
Proof.
  destruct (mapping_result_fills_columns Scenarios.run
              Examples.stringToNumber
              "return { ['__proto__']: 5, A: 1 };" (Examples.binding 7)
              (Examples.variable "x" 0 10) [Examples.output "B"]
              (ofZ 0) (ofZ 1) 3 [] 0
              [ ("__proto__", PNumber (ofZ 5)); ("A", PNumber (ofZ 1)) ]
              eq_refl proto_keys_NoDup)
    as (point & Hpoint & Hnamed & Hother & Hproto).
  exists point. split; [exact Hpoint|]. split; [|split].
  - apply (Hnamed "A" (PNumber (ofZ 1))); [right; left|left; discriminate].
  - transitivity
      (contextVars (Examples.binding 7) (Examples.variable "x" 0 10) (ofZ 3)
         !! "x"); [|reflexivity].
    apply Hother. cbn. intros Hin.
    apply elem_of_cons in Hin as [Hin|Hin]; [discriminate|].
    apply elem_of_cons in Hin as [Hin|Hin]; [discriminate|].
    by apply elem_of_nil in Hin.
  - apply Hproto. reflexivity.
Defined.




Lemma generateDataset_nonpositive_count_witness :
  generateDataset Examples.run Examples.stringToNumber
    (Some Examples.lines) (Examples.binding 0) (-1) 0
  = (Some [], 0).
Proof.
  destruct (generateDataset_nonpositive_count Examples.run
              Examples.stringToNumber Examples.lines
              (Examples.variable "x" 0 10) [] (Examples.binding 0) (-1) 0
              eq_refl) as [Hnegative _].
  apply Hnegative. lia.
Defined.

Lemma state_text_not_blank : trim (Simulator.problemText Scenarios.state) ≠ "".
Proof. discriminate. Defined.

Lemma run_zero ctx h :
  (Examples.run "return 0;" ctx h).1 = Normal (VPrim (PNumber (ofZ 0))).
Proof. reflexivity. Defined.

Lemma failed_analysis_shows_flat_line_witness :
  Simulator.errorMsg
    (handleAnalyze Scenarios.state
       (Returned
          (analyzeProblemForSimulation Scenarios.rejecting Scenarios.parse
             "clave" (Simulator.problemText Scenarios.state))))
  = Some "503 Service Unavailable"
  ∧ Simulator.schema
      (handleAnalyze Scenarios.state
         (Returned
            (analyzeProblemForSimulation Scenarios.rejecting Scenarios.parse
               "clave" (Simulator.problemText Scenarios.state))))
    = Some (errorSchema "503 Service Unavailable").
Proof.
  destruct (failed_analysis_shows_flat_line Examples.run
              Examples.stringToNumber Scenarios.rejecting Scenarios.parse
              "clave" Scenarios.state "503 Service Unavailable" 0
              state_text_not_blank eq_refl run_zero)
    as (Hmsg & Hschema & _).
  split; [exact Hmsg|exact Hschema].
Defined.

Lemma answering_returns_double :
  requestSchema Scenarios.answering Scenarios.parse "clave"
    (Simulator.problemText Scenarios.state)
  = Returned (validationAndDefaults Examples.parsedDouble).
Proof. vm_compute. reflexivity. Defined.

Lemma successful_analysis_resets_the_view_witness :
  Simulator.schema
    (handleAnalyze Scenarios.state
       (Returned
          (analyzeProblemForSimulation Scenarios.answering Scenarios.parse
             "clave" (Simulator.problemText Scenarios.state))))
  = Some (validationAndDefaults Examples.parsedDouble)
  ∧ Simulator.errorMsg
      (handleAnalyze Scenarios.state
         (Returned
            (analyzeProblemForSimulation Scenarios.answering Scenarios.parse
               "clave" (Simulator.problemText Scenarios.state))))
    = None.
Proof.
  destruct (successful_analysis_resets_the_view Scenarios.answering
              Scenarios.parse "clave" Scenarios.state
              (validationAndDefaults Examples.parsedDouble)
              state_text_not_blank answering_returns_double)
    as (Hschema & _ & _ & Hother & _).
  split; [exact Hschema|].
  apply Hother. discriminate.
Defined.

Lemma generateDataset_agrees_with_memoized_engine_witness :
  (generateDataset Examples.run Examples.stringToNumber
     (Some Examples.lines) (Examples.binding 0) 10 0).1
  = Some
      (generatedData
         (dataGenerationEngine Examples.run Examples.stringToNumber
            (Some Examples.lines) (Examples.binding 0) 10 0).1).
Proof.
  assert (0 < 10) as Hcount by lia.
  exact (proj1 (generateDataset_agrees_with_memoized_engine Examples.run
                  Examples.stringToNumber Examples.lines
                  [Examples.output "A"; Examples.output "B"]
                  (Examples.variable "x" 0 10) [] (Examples.binding 0) 10 0
                  Hcount eq_refl eq_refl)).
Defined.

Lemma segment_guards_cover_witness :
  crossing "x" (Examples.output "A") (Examples.output "B")
    {[ "x" := ofZ 0; "A" := Infinity; "B" := ofZ 0 ]}
    {[ "x" := ofZ 1; "A" := ofZ (-1); "B" := ofZ 0 ]}
  = [].
Proof.
  apply segment_guards_cover. do 4 right. by left.
Defined.

Lemma empty_variable_list_is_kept_witness :
  UniversalSimulator Examples.run Examples.stringToNumber
    (Some (validationAndDefaults
             (ParsedResponse.mk "" "" (Some []) None None None "" "")))
    (Examples.binding 0) 100 ∅ 0
  = ([], [], 0).
Proof.
  exact (proj2 (empty_variable_list_is_kept Examples.run
                  Examples.stringToNumber
                  (ParsedResponse.mk "" "" (Some []) None None None "" "")
                  (Examples.binding 0) 100 ∅ 0 eq_refl)).
Defined.
